(** * Inventory management system: shallow embedding of [app.py]

    The Python program keeps a catalogue of products of three classes
    ([Electronics], [Grocery], [Clothing]) in an [Inventory], a dict from
    product id to product object, and persists it as a JSON document.

    Conventions of the embedding.
    - A Python [int] is a [Z]; a Python [float] is a binary64 [float]
      (Rocq's primitive floats); a [str] is a [string] of ASCII characters.
    - A value decoded from JSON ([json.load]) is a [value]; a JSON object is
      a finite map from keys to values.
    - Arguments and attributes carry the types of the source's annotations
      ([price: float], which by the numeric tower also admits an [int];
      [quantity_in_stock: int]; [product_id: str]; ...).
    - The standard library is the one of CPython 3.11 on Linux, where it
      matters: the year written by [strftime], the digits [repr] allows
      an [int].
    - A method that can raise returns a [result]; the methods of
      [Inventory], which mutate [self._products], are state transformers
      that return the store as it is when the call returns or raises. *)

From Stdlib Require Import ZArith String Ascii List Lia Bool.
From Stdlib Require Import PrimFloat SpecFloat FloatOps FloatAxioms.
From stdpp Require Import base list strings gmap.

Local Open Scope string_scope.
Local Open Scope Z_scope.

(** ** Python values *)

(** What [json.load] can produce. *)
#[warnings="-register-all"]
Inductive value : Type :=
| VNone
| VBool (b : bool)
| VInt (z : Z)
| VFloat (f : float)
| VStr (s : string)
| VList (l : list value)
| VDict (d : gmap string value).

(** The numbers a [price: float] attribute holds. *)
Inductive number : Type :=
| NInt (z : Z)
| NFloat (f : float).

Definition value_of_number (n : number) : value :=
  match n with
  | NInt z => VInt z
  | NFloat f => VFloat f
  end.

(** ** Exceptions *)

(** The [ValueError]s of the program, by the message they carry. *)
Inductive value_error : Type :=
| PriceMustBePositive          (* "Price must be positive" *)
| RestockAmountMustBePositive  (* "Restock amount must be positive" *)
| SaleQuantityMustBePositive   (* "Sale quantity must be positive" *)
| TimeDataMismatch             (* raised by [datetime.strptime] *)
| IntegerStringConversion.     (* "Exceeds the limit (4300 digits) for integer
                                  string conversion" *)

(** The two messages of [InvalidProductDataError]. *)
Inductive bad_data : Type :=
| UnknownProductType (tag : value)  (* f"Unknown product type: {product_type}" *)
| MissingRequiredField (key : string). (* f"Missing required field: {e}" *)

Inductive exn : Type :=
| ValueError (why : value_error)
| TypeError
| KeyError (arg : string)
| OverflowError
(* f"Not enough stock. Available: {available}, Requested: {requested}" *)
| InsufficientStockError (available requested : Z)
(* f"Product ID {product_id} already exists" *)
| DuplicateProductError (product_id : string)
| InvalidProductDataError (why : bad_data).

(** Outcome of a call.  [Untyped] stands for a call that returns normally
    in Python with an object one of whose attributes is outside its
    annotated type (a record whose "price" is a string, say): the
    constructors check nothing, and the typed [Product] below has no such
    inhabitant. *)
Inductive result (A : Type) : Type :=
| Ok (a : A)
| Raise (e : exn)
| Untyped.
Arguments Ok {A} a.
Arguments Raise {A} e.
Arguments Untyped {A}.

Definition bind {A B : Type} (r : result A) (k : A -> result B) : result B :=
  match r with
  | Ok a => k a
  | Raise e => Raise e
  | Untyped => Untyped
  end.

Notation "x <- r ;; k" := (bind r (fun x => k))
  (at level 100, r at next level, right associativity).

(** ** [datetime.date], [strptime] and [strftime] for the format "%Y-%m-%d" *)

Record date : Type := mkDate { year : Z; month : Z; day : Z }.

Definition is_leap (y : Z) : bool :=
  (y mod 4 =? 0) && (negb (y mod 100 =? 0) || (y mod 400 =? 0)).

Definition days_in_month (y m : Z) : Z :=
  if m =? 2 then (if is_leap y then 29 else 28)
  else if (m =? 4) || (m =? 6) || (m =? 9) || (m =? 11) then 30
  else 31.

(** The dates [datetime.date(y, m, d)] accepts. *)
Definition date_valid (d : date) : bool :=
  (1 <=? year d) && (year d <=? 9999) &&
  (1 <=? month d) && (month d <=? 12) &&
  (1 <=? day d) && (day d <=? days_in_month (year d) (month d)).

(** [d1 < d2] on dates. *)
Definition date_ltb (d1 d2 : date) : bool :=
  (year d1 <? year d2) ||
  ((year d1 =? year d2) &&
   ((month d1 <? month d2) ||
    ((month d1 =? month d2) && (day d1 <? day d2)))).

Definition digit (c : ascii) : option Z :=
  let n := Z.of_nat (nat_of_ascii c) in
  if (48 <=? n) && (n <=? 57) then Some (n - 48) else None.

Definition digit_in (lo hi : Z) (c : ascii) : option Z :=
  match digit c with
  | Some n => if (lo <=? n) && (n <=? hi) then Some n else None
  | None => None
  end.

(** The alternatives of the directive %m, [1[0-2]|0[1-9]|[1-9]], in the
    order the regular expression tries them: each one that matches a prefix
    of [s], with the rest of [s]. *)
Definition month_alternatives (s : string) : list (Z * string) :=
  match s with
  | String c1 (String c2 r) =>
      match digit_in 1 1 c1, digit_in 0 2 c2 with
      | Some _, Some n => [(10 + n, r)]
      | _, _ => []
      end
  | _ => []
  end ++
  match s with
  | String c1 (String c2 r) =>
      match digit_in 0 0 c1, digit_in 1 9 c2 with
      | Some _, Some n => [(n, r)]
      | _, _ => []
      end
  | _ => []
  end ++
  match s with
  | String c1 r =>
      match digit_in 1 9 c1 with
      | Some n => [(n, r)]
      | None => []
      end
  | _ => []
  end.

(** The alternatives of %d, [3[0-1]|[1-2]\d|0[1-9]|[1-9]| [1-9]]. *)
Definition day_alternatives (s : string) : list (Z * string) :=
  match s with
  | String c1 (String c2 r) =>
      match digit_in 3 3 c1, digit_in 0 1 c2 with
      | Some _, Some n => [(30 + n, r)]
      | _, _ => []
      end ++
      match digit_in 1 2 c1, digit c2 with
      | Some t, Some n => [(10 * t + n, r)]
      | _, _ => []
      end ++
      match digit_in 0 0 c1, digit_in 1 9 c2 with
      | Some _, Some n => [(n, r)]
      | _, _ => []
      end
  | _ => []
  end ++
  match s with
  | String c1 r =>
      match digit_in 1 9 c1 with
      | Some n => [(n, r)]
      | None => []
      end
  | _ => []
  end ++
  match s with
  | String c1 (String c2 r) =>
      match Ascii.eqb c1 " "%char, digit_in 1 9 c2 with
      | true, Some n => [(n, r)]
      | _, _ => []
      end
  | _ => []
  end.

(** After the month: the literal "-" and the day.  The match is a prefix
    match; what is left over is returned with it. *)
Definition match_day (s : string) : option (Z * string) :=
  match s with
  | String c r => if Ascii.eqb c "-"%char then head (day_alternatives r) else None
  | _ => None
  end.

(** First month alternative after which the rest of the pattern matches. *)
Fixpoint match_month_day (alts : list (Z * string)) : option (Z * Z * string) :=
  match alts with
  | [] => None
  | (m, r) :: alts' =>
      match match_day r with
      | Some (d, r') => Some (m, d, r')
      | None => match_month_day alts'
      end
  end.

(** [re.match] of the pattern for "%Y-%m-%d": four digits, "-", month,
    "-", day. *)
Definition match_format (s : string) : option (Z * Z * Z * string) :=
  match s with
  | String y1 (String y2 (String y3 (String y4 (String c r)))) =>
      match digit y1, digit y2, digit y3, digit y4 with
      | Some a, Some b, Some c', Some d =>
          if Ascii.eqb c "-"%char then
            match match_month_day (month_alternatives r) with
            | Some (m, dd, r') => Some (1000 * a + 100 * b + 10 * c' + d, m, dd, r')
            | None => None
            end
          else None
      | _, _, _, _ => None
      end
  | _ => None
  end.

(** [datetime.strptime(s, "%Y-%m-%d").date()]: [ValueError] when the
    pattern does not match, when unconverted data remains, and when the
    numbers read are not a date. *)
Definition strptime (s : string) : result date :=
  match match_format s with
  | Some (y, m, d, "") =>
      let dt := mkDate y m d in
      if date_valid dt then Ok dt else Raise (ValueError TimeDataMismatch)
  | _ => Raise (ValueError TimeDataMismatch)
  end.

Definition digit_char (n : Z) : ascii := ascii_of_nat (Z.to_nat (48 + n)).

Definition pad2 (n : Z) : string :=
  String (digit_char (n / 10)) (String (digit_char (n mod 10)) "").

Definition pad4 (n : Z) : string :=
  String (digit_char (n / 1000))
    (String (digit_char (n / 100 mod 10))
       (String (digit_char (n / 10 mod 10))
          (String (digit_char (n mod 10)) ""))).

(** The year as the directive %Y of the C library writes it (CPython 3.11
    on Linux): in decimal, with no padding, so with fewer than four digits
    before the year 1000. *)
Definition year_text (y : Z) : string :=
  if y <? 10 then String (digit_char y) ""
  else if y <? 100 then pad2 y
  else if y <? 1000 then String (digit_char (y / 100)) (pad2 (y mod 100))
  else pad4 y.

(** [d.strftime("%Y-%m-%d")]: the year, then month and day in two digits. *)
Definition strftime (d : date) : string :=
  year_text (year d) ++ "-" ++ pad2 (month d) ++ "-" ++ pad2 (day d).

(** ** Numbers *)

(** [float(z)], the conversion Python applies to an [int] operand that
    meets a [float]: round to nearest even, [OverflowError] beyond the
    range of binary64. *)
Definition float_of_int (z : Z) : result float :=
  match binary_normalize prec emax z 0 false with
  | S754_infinity _ => Raise OverflowError
  | sf => Ok (SF2Prim sf)
  end.

(** [x <= 0] *)
Definition number_le0 (x : number) : bool :=
  match x with
  | NInt z => z <=? 0
  | NFloat f => PrimFloat.leb f PrimFloat.zero
  end.

(** [0 < x] *)
Definition number_gt0 (x : number) : bool :=
  match x with
  | NInt z => 0 <? z
  | NFloat f => PrimFloat.ltb PrimFloat.zero f
  end.

(** [x * n] for an [int] n *)
Definition number_mul_int (x : number) (n : Z) : result number :=
  match x with
  | NInt z => Ok (NInt (z * n))
  | NFloat f => g <- float_of_int n ;; Ok (NFloat (PrimFloat.mul f g))
  end.

(** [x + y] *)
Definition number_add (x y : number) : result number :=
  match x, y with
  | NInt a, NInt b => Ok (NInt (a + b))
  | NInt a, NFloat g => f <- float_of_int a ;; Ok (NFloat (PrimFloat.add f g))
  | NFloat f, NInt b => g <- float_of_int b ;; Ok (NFloat (PrimFloat.add f g))
  | NFloat f, NFloat g => Ok (NFloat (PrimFloat.add f g))
  end.

(** ** Strings *)

Definition lower_char (c : ascii) : ascii :=
  let n := nat_of_ascii c in
  if (65 <=? n)%nat && (n <=? 90)%nat then ascii_of_nat (n + 32) else c.

(** [s.lower()] *)
Fixpoint lower (s : string) : string :=
  match s with
  | EmptyString => EmptyString
  | String c r => String (lower_char c) (lower r)
  end.

(** [sub in s] on strings *)
Fixpoint contains (sub s : string) : bool :=
  String.prefix sub s ||
  match s with
  | EmptyString => false
  | String _ r => contains sub r
  end.

(** ** Objects with state *)

(** A method of an object whose state is an [S]: it returns or raises, and
    leaves the object in the state given second. *)
Definition method (S A : Type) : Type := S -> result A * S.

(** ** The product classes *)

(** The attributes a subclass adds to [Product]. *)
Inductive attributes : Type :=
| ElectronicsAttrs (_warranty_years : Z) (_brand : string)
| GroceryAttrs (_expiry_date : date)
| ClothingAttrs (_size : string) (_material : string).

Record Product : Type := mkProduct {
  _product_id : string;
  _name : string;
  _price : number;
  _quantity_in_stock : Z;
  _attrs : attributes
}.

Inductive class : Type := ProductClass | ElectronicsClass | GroceryClass | ClothingClass.

Definition class_of (p : Product) : class :=
  match _attrs p with
  | ElectronicsAttrs _ _ => ElectronicsClass
  | GroceryAttrs _ => GroceryClass
  | ClothingAttrs _ _ => ClothingClass
  end.

Definition class_eqb (c1 c2 : class) : bool :=
  match c1, c2 with
  | ProductClass, ProductClass | ElectronicsClass, ElectronicsClass
  | GroceryClass, GroceryClass | ClothingClass, ClothingClass => true
  | _, _ => false
  end.

(** [isinstance(p, c)]: every product is an instance of [Product]. *)
Definition isinstance (p : Product) (c : class) : bool :=
  class_eqb c ProductClass || class_eqb (class_of p) c.

Module Product.

(** [Product.__init__]: the four attributes are stored as given. *)
Definition init (product_id name : string) (price : number)
    (quantity_in_stock : Z) (attrs : attributes) : Product :=
  mkProduct product_id name price quantity_in_stock attrs.

Definition with_price (self : Product) (price : number) : Product :=
  mkProduct (_product_id self) (_name self) price (_quantity_in_stock self) (_attrs self).

Definition with_quantity (self : Product) (quantity : Z) : Product :=
  mkProduct (_product_id self) (_name self) (_price self) quantity (_attrs self).

(** The setter of the property [price]. *)
Definition set_price (new_price : number) : method Product unit :=
  fun self =>
    if number_le0 new_price then (Raise (ValueError PriceMustBePositive), self)
    else (Ok tt, with_price self new_price).

Definition restock (amount : Z) : method Product unit :=
  fun self =>
    if amount <=? 0 then (Raise (ValueError RestockAmountMustBePositive), self)
    else (Ok tt, with_quantity self (_quantity_in_stock self + amount)).

Definition sell (quantity : Z) : method Product unit :=
  fun self =>
    if quantity <=? 0 then (Raise (ValueError SaleQuantityMustBePositive), self)
    else if quantity >? _quantity_in_stock self then
      (Raise (InsufficientStockError (_quantity_in_stock self) quantity), self)
    else (Ok tt, with_quantity self (_quantity_in_stock self - quantity)).

Definition get_total_value (self : Product) : result number :=
  number_mul_int (_price self) (_quantity_in_stock self).

End Product.

(** [data[key]] on the dict of a record. *)
Definition getitem (data : gmap string value) (key : string) : result value :=
  match data !! key with
  | Some v => Ok v
  | None => Raise (KeyError key)
  end.

(** A value passed for a parameter annotated [str], [int] or [float]. *)
Definition as_str (v : value) : result string :=
  match v with VStr s => Ok s | _ => Untyped end.

Definition as_int (v : value) : result Z :=
  match v with VInt z => Ok z | _ => Untyped end.

Definition as_float (v : value) : result number :=
  match v with VInt z => Ok (NInt z) | VFloat f => Ok (NFloat f) | _ => Untyped end.

Module Electronics.

Definition init (product_id name : string) (price : number)
    (quantity_in_stock warranty_years : Z) (brand : string) : Product :=
  Product.init product_id name price quantity_in_stock
    (ElectronicsAttrs warranty_years brand).

Definition to_dict (self : Product) (warranty_years : Z) (brand : string)
    : gmap string value :=
  list_to_map
    [("type", VStr "electronics");
     ("product_id", VStr (_product_id self));
     ("name", VStr (_name self));
     ("price", value_of_number (_price self));
     ("quantity_in_stock", VInt (_quantity_in_stock self));
     ("warranty_years", VInt warranty_years);
     ("brand", VStr brand)].

Definition from_dict (data : gmap string value) : result Product :=
  product_id <- getitem data "product_id" ;;
  name <- getitem data "name" ;;
  price <- getitem data "price" ;;
  quantity_in_stock <- getitem data "quantity_in_stock" ;;
  warranty_years <- getitem data "warranty_years" ;;
  brand <- getitem data "brand" ;;
  product_id <- as_str product_id ;;
  name <- as_str name ;;
  price <- as_float price ;;
  quantity_in_stock <- as_int quantity_in_stock ;;
  warranty_years <- as_int warranty_years ;;
  brand <- as_str brand ;;
  Ok (init product_id name price quantity_in_stock warranty_years brand).

End Electronics.

Module Grocery.

(** [Grocery.__init__]: the expiry date arrives as text and is parsed. *)
Definition init (product_id name : string) (price : number)
    (quantity_in_stock : Z) (expiry_date : string) : result Product :=
  d <- strptime expiry_date ;;
  Ok (Product.init product_id name price quantity_in_stock (GroceryAttrs d)).

(** [self._expiry_date < date.today()], the clock read as [today].  Only
    an instance of [Grocery] has the method; the program calls it behind
    an [isinstance] test. *)
Definition is_expired (today : date) (self : Product) : bool :=
  match _attrs self with
  | GroceryAttrs expiry_date => date_ltb expiry_date today
  | _ => false
  end.

Definition to_dict (self : Product) (expiry_date : date) : gmap string value :=
  list_to_map
    [("type", VStr "grocery");
     ("product_id", VStr (_product_id self));
     ("name", VStr (_name self));
     ("price", value_of_number (_price self));
     ("quantity_in_stock", VInt (_quantity_in_stock self));
     ("expiry_date", VStr (strftime expiry_date))].

(** [strptime] is reached with whatever the record holds: it raises
    [TypeError] on anything but a [str], after [Product.__init__] has
    stored the other four values. *)
Definition from_dict (data : gmap string value) : result Product :=
  product_id <- getitem data "product_id" ;;
  name <- getitem data "name" ;;
  price <- getitem data "price" ;;
  quantity_in_stock <- getitem data "quantity_in_stock" ;;
  expiry_date <- getitem data "expiry_date" ;;
  d <- match expiry_date with
       | VStr s => strptime s
       | _ => Raise TypeError
       end ;;
  product_id <- as_str product_id ;;
  name <- as_str name ;;
  price <- as_float price ;;
  quantity_in_stock <- as_int quantity_in_stock ;;
  Ok (Product.init product_id name price quantity_in_stock (GroceryAttrs d)).

End Grocery.

Module Clothing.

Definition init (product_id name : string) (price : number)
    (quantity_in_stock : Z) (size material : string) : Product :=
  Product.init product_id name price quantity_in_stock
    (ClothingAttrs size material).

Definition to_dict (self : Product) (size material : string)
    : gmap string value :=
  list_to_map
    [("type", VStr "clothing");
     ("product_id", VStr (_product_id self));
     ("name", VStr (_name self));
     ("price", value_of_number (_price self));
     ("quantity_in_stock", VInt (_quantity_in_stock self));
     ("size", VStr size);
     ("material", VStr material)].

Definition from_dict (data : gmap string value) : result Product :=
  product_id <- getitem data "product_id" ;;
  name <- getitem data "name" ;;
  price <- getitem data "price" ;;
  quantity_in_stock <- getitem data "quantity_in_stock" ;;
  size <- getitem data "size" ;;
  material <- getitem data "material" ;;
  product_id <- as_str product_id ;;
  name <- as_str name ;;
  price <- as_float price ;;
  quantity_in_stock <- as_int quantity_in_stock ;;
  size <- as_str size ;;
  material <- as_str material ;;
  Ok (init product_id name price quantity_in_stock size material).

End Clothing.

(** [p.to_dict()], dispatched on the class of [p]. *)
Definition to_dict (p : Product) : gmap string value :=
  match _attrs p with
  | ElectronicsAttrs w b => Electronics.to_dict p w b
  | GroceryAttrs d => Grocery.to_dict p d
  | ClothingAttrs s m => Clothing.to_dict p s m
  end.

(** ** Python's insertion-ordered dict, keyed by [str] *)

Section Dict.
Context {V : Type}.

(** [d.get(k)] *)
Fixpoint dict_get (k : string) (d : list (string * V)) : option V :=
  match d with
  | [] => None
  | (k', v) :: d' => if String.eqb k k' then Some v else dict_get k d'
  end.

(** [k in d] *)
Definition dict_mem (k : string) (d : list (string * V)) : bool :=
  match dict_get k d with Some _ => true | None => false end.

(** [d[k] = v]: a present key keeps its place, a new one goes last. *)
Fixpoint dict_set (k : string) (v : V) (d : list (string * V)) : list (string * V) :=
  match d with
  | [] => [(k, v)]
  | (k', v') :: d' =>
      if String.eqb k k' then (k', v) :: d' else (k', v') :: dict_set k v d'
  end.

(** [d.pop(k)]: the value under [k] and the dict without the entry;
    [None] where Python raises [KeyError]. *)
Fixpoint dict_pop (k : string) (d : list (string * V)) : option (V * list (string * V)) :=
  match d with
  | [] => None
  | (k', v) :: d' =>
      if String.eqb k k' then Some (v, d')
      else match dict_pop k d' with
           | Some (w, d'') => Some (w, (k', v) :: d'')
           | None => None
           end
  end.

(** [d.keys()] and [d.values()], in insertion order *)
Definition dict_keys (d : list (string * V)) : list string := map fst d.
Definition dict_values (d : list (string * V)) : list V := map snd d.
End Dict.

(** ** The inventory *)

(** [self._products]: product id to product object, in insertion order.
    A Python dict holds a key once: [NoDup (dict_keys inv)]. *)
Abbreviation Inventory := (list (string * Product)).

(** [data[key]] on any decoded value: only a dict has [str] subscripts. *)
Definition subscript (data : value) (key : string) : result value :=
  match data with
  | VDict d => getitem d key
  | _ => Raise TypeError
  end.

(** The sequence a [for] loop draws from a decoded value: the items of a
    list, the keys of a dict, the characters of a string (each a [str]);
    nothing else is iterable. *)
Definition iterate (v : value) : result (list value) :=
  match v with
  | VList l => Ok l
  | VDict d => Ok (map (fun kv => VStr (fst kv)) (map_to_list d))
  | VStr s => Ok (map (fun c => VStr (String c EmptyString)) (list_ascii_of_string s))
  | _ => Raise TypeError
  end.

(** [product_classes], the table of [load_from_file]; subscripting and
    membership hash the key, which a list or a dict refuses. *)
Definition product_classes (product_type : value) : result (option class) :=
  match product_type with
  | VList _ | VDict _ => Raise TypeError
  | VStr s =>
      if String.eqb s "electronics" then Ok (Some ElectronicsClass)
      else if String.eqb s "grocery" then Ok (Some GroceryClass)
      else if String.eqb s "clothing" then Ok (Some ClothingClass)
      else Ok None
  | _ => Ok None
  end.

(** [cls.from_dict(data)] *)
Definition from_dict (cls : class) (data : gmap string value) : result Product :=
  match cls with
  | ElectronicsClass => Electronics.from_dict data
  | GroceryClass => Grocery.from_dict data
  | ClothingClass => Clothing.from_dict data
  | ProductClass => Raise TypeError
  end.

(** The clause [except KeyError as e: raise InvalidProductDataError(...)]. *)
Definition except_KeyError {A : Type} (r : result A) : result A :=
  match r with
  | Raise (KeyError k) => Raise (InvalidProductDataError (MissingRequiredField k))
  | _ => r
  end.

(** The first three statements of the [try] block of [load_from_file]:
    from a record to a product object. *)
Definition decode (product_data : value) : result Product :=
  product_type <- subscript product_data "type" ;;
  known <- product_classes product_type ;;
  match known with
  | None => Raise (InvalidProductDataError (UnknownProductType product_type))
  | Some cls =>
      match product_data with
      | VDict d => from_dict cls d
      | _ => Raise TypeError
      end
  end.

(** Decoding as [load_from_file] performs it, under the [except] clause. *)
Definition deserialize (product_data : value) : result Product :=
  except_KeyError (decode product_data).

(** [serialize]: the record [to_dict] builds. *)
Definition serialize (p : Product) : value := VDict (to_dict p).

(** [sys.get_int_max_str_digits()], as CPython 3.11 sets it. *)
Definition int_max_str_digits : Z := 4300.

(** [repr(z)] returns: it raises [ValueError] on an [int] of more digits. *)
Definition int_repr_ok (z : Z) : bool := Z.abs z <? 10 ^ int_max_str_digits.

(** [json.dump] can write the record of [p]: strings and floats (NaN and
    the infinities too) always, an [int] when [repr] returns. *)
Definition json_dumpable (p : Product) : bool :=
  match _price p with NInt z => int_repr_ok z | NFloat _ => true end &&
  int_repr_ok (_quantity_in_stock p) &&
  match _attrs p with
  | ElectronicsAttrs warranty_years _ => int_repr_ok warranty_years
  | _ => true
  end.

Module Inventory.

(** [Inventory.__init__] *)
Definition init : Inventory := [].

Definition add_product (product : Product) : method Inventory unit :=
  fun self =>
    if dict_mem (_product_id product) self then
      (Raise (DuplicateProductError (_product_id product)), self)
    else (Ok tt, dict_set (_product_id product) product self).

Definition not_found (product_id : string) : exn :=
  KeyError ("Product ID " ++ product_id ++ " not found").

Definition remove_product (product_id : string) : method Inventory unit :=
  fun self =>
    match dict_pop product_id self with
    | None => (Raise (not_found product_id), self)
    | Some (_, rest) => (Ok tt, rest)
    end.

Definition search_by_name (name : string) : method Inventory (list Product) :=
  fun self =>
    (Ok (filter (fun p => Is_true (contains (lower name) (lower (_name p))))
           (dict_values self)), self).

Definition search_by_type (product_type : class) : method Inventory (list Product) :=
  fun self =>
    (Ok (filter (fun p => Is_true (isinstance p product_type)) (dict_values self)), self).

Definition list_all_products : method Inventory (list Product) :=
  fun self => (Ok (dict_values self), self).

(** [self._products[product_id].m(...)]: the method runs on the object
    stored under the key, which stays where it is in the dict. *)
Definition on_product {A : Type} (product_id : string) (m : method Product A)
    : method Inventory A :=
  fun self =>
    match dict_get product_id self with
    | None => (Raise (not_found product_id), self)
    | Some product =>
        let '(r, product') := m product in
        (r, dict_set product_id product' self)
    end.

Definition sell_product (product_id : string) (quantity : Z) : method Inventory unit :=
  on_product product_id (Product.sell quantity).

Definition restock_product (product_id : string) (quantity : Z) : method Inventory unit :=
  on_product product_id (Product.restock quantity).

(** [sum(...)] over the generator: from [0], one [+] per product, each
    value computed when the sum reaches it.  (From Python 3.12 on [sum]
    adds floats with a compensated algorithm, so the last bits of a float
    total can differ from this left-to-right sum.) *)
Fixpoint sum_values (acc : number) (products : list Product) : result number :=
  match products with
  | [] => Ok acc
  | p :: rest =>
      v <- Product.get_total_value p ;;
      acc' <- number_add acc v ;;
      sum_values acc' rest
  end.

Definition total_inventory_value : method Inventory number :=
  fun self => (sum_values (NInt 0) (dict_values self), self).

(** The loop of [remove_expired_products] over the snapshot
    [list(self._products.items())]; [today] is what [date.today()] returns
    throughout the call. *)
Fixpoint remove_expired_loop (today : date) (items : list (string * Product))
    (expired : list Product) : method Inventory (list Product) :=
  fun self =>
    match items with
    | [] => (Ok expired, self)
    | (product_id, product) :: rest =>
        if isinstance product GroceryClass && Grocery.is_expired today product then
          match dict_pop product_id self with
          | Some (popped, self') =>
              remove_expired_loop today rest (expired ++ [popped]) self'
          | None => (Raise (KeyError product_id), self)
          end
        else remove_expired_loop today rest expired self
    end.

Definition remove_expired_products (today : date) : method Inventory (list Product) :=
  fun self => remove_expired_loop today self [] self.

(** [save_to_file]: the document handed to [json.dump], when [json.dump]
    writes it out.  The ints of the document are the ones [json_dumpable]
    looks at; at the first that [int.__repr__] refuses, [json.dump] raises
    [ValueError] (and the file holds the text written up to there). *)
Definition save_to_file : method Inventory value :=
  fun self =>
    if forallb json_dumpable (dict_values self) then
      (Ok (VDict (list_to_map
                    [("products", VList (map serialize (dict_values self)))])),
       self)
    else (Raise (ValueError IntegerStringConversion), self).

(** The body of the [for] loop of [load_from_file], for one record. *)
Definition load_record (product_data : value) : method Inventory unit :=
  fun self =>
    match decode product_data with
    | Ok product =>
        let '(r, self') := add_product product self in
        (except_KeyError r, self')
    | failed => (except_KeyError (product <- failed ;; Ok tt), self)
    end.

(** The [for] loop: it ends at the first record that does not return.  (An
    [Untyped] record is one Python would add and go on from; the typed
    model stops there.) *)
Fixpoint load_records (records : list value) : method Inventory unit :=
  fun self =>
    match records with
    | [] => (Ok tt, self)
    | product_data :: rest =>
        match load_record product_data self with
        | (Ok _, self') => load_records rest self'
        | failed => failed
        end
    end.

(** [load_from_file], from the point where [json.load] has returned
    [data]: the store is replaced by an empty dict, then filled. *)
Definition load_from_file (data : value) : method Inventory unit :=
  fun _ =>
    let self := [] in
    match (products <- subscript data "products" ;; iterate products) with
    | Ok records => load_records records self
    | Raise e => (Raise e, self)
    | Untyped => (Untyped, self)
    end.

End Inventory.

(** * Vocabulary of the properties *)

(** A grocery whose expiry date is before [today]. *)
Definition expired_grocery (today : date) (p : Product) : bool :=
  match _attrs p with
  | GroceryAttrs expiry_date => date_ltb expiry_date today
  | _ => false
  end.

(** The expiry date of a grocery is a date of the calendar, as every
    [datetime.date] object is. *)
Definition dated (p : Product) : Prop :=
  match _attrs p with
  | GroceryAttrs expiry_date => date_valid expiry_date = true
  | _ => True
  end.

(** The expiry date of a grocery, if any, is in the year 1000 or later. *)
Definition four_digit_year (p : Product) : Prop :=
  match _attrs p with
  | GroceryAttrs expiry_date => 1000 <= year expiry_date
  | _ => True
  end.

(** What a Python dict filled by [add_product] satisfies: a key occurs
    once, and it is the id of the product stored under it. *)
Definition store_ok (self : Inventory) : Prop :=
  NoDup (dict_keys self) /\ Forall (fun entry => fst entry = _product_id (snd entry)) self.

(** The store [add_product] builds from products with distinct ids. *)
Definition stored (products : list Product) : Inventory :=
  map (fun p => (_product_id p, p)) products.

(** The keys [from_dict] subscripts for a record with a given type tag. *)
Definition required_fields (tag : string) : list string :=
  if String.eqb tag "electronics" then
    ["product_id"; "name"; "price"; "quantity_in_stock"; "warranty_years"; "brand"]
  else if String.eqb tag "grocery" then
    ["product_id"; "name"; "price"; "quantity_in_stock"; "expiry_date"]
  else if String.eqb tag "clothing" then
    ["product_id"; "name"; "price"; "quantity_in_stock"; "size"; "material"]
  else [].

Definition recognised (tag : value) : Prop :=
  tag = VStr "electronics" \/ tag = VStr "grocery" \/ tag = VStr "clothing".

(** Values Python can hash: all but lists and dicts. *)
Definition hashable (tag : value) : Prop :=
  match tag with
  | VList _ | VDict _ => False
  | _ => True
  end.

(** Results the [except KeyError] clause turns into, or leaves as,
    [InvalidProductDataError]. *)
Definition invalid_data {A : Type} (r : result A) : Prop :=
  match r with
  | Raise (KeyError _) | Raise (InvalidProductDataError _) => True
  | _ => False
  end.

(** [x > 0], or [x] is the float NaN, which no comparison holds of. *)
Definition positive_or_nan (x : number) : Prop :=
  number_gt0 x = true \/ exists f, x = NFloat f /\ PrimFloat.is_nan f = true.

(** One call of [sell], [restock] or the price setter, returning or raising. *)
Definition mutation (p p' : Product) : Prop :=
  (exists quantity, p' = snd (Product.sell quantity p)) \/
  (exists amount, p' = snd (Product.restock amount p)) \/
  (exists new_price, p' = snd (Product.set_price new_price p)).

Definition invariant (p : Product) : Prop :=
  number_le0 (_price p) = false /\ 0 <= _quantity_in_stock p.

(** The price of a product whose price is an [int]. *)
Definition whole_price (p : Product) : Z :=
  match _price p with
  | NInt z => z
  | NFloat _ => 0
  end.

(** The sum over products of price times stock, for [int] prices. *)
Definition whole_total (products : list Product) : Z :=
  foldr (fun p total => whole_price p * _quantity_in_stock p + total) 0 products.

(** ** Sample data *)

Definition tv : Product :=
  Electronics.init "E1" "TV" (NFloat 100%float) 2 1 "Acme".

Definition radio : Product :=
  Electronics.init "E1" "Radio" (NFloat 30%float) 5 2 "Acme".

Definition shirt : Product :=
  Clothing.init "C1" "Shirt" (NFloat 25.5%float) 4 "M" "cotton".

Definition milk : Product :=
  Product.init "G1" "Milk" (NFloat 1.5%float) 3 (GroceryAttrs (mkDate 2024 1 1)).

Definition yogurt : Product :=
  Product.init "G2" "Yogurt" (NInt 2) 6 (GroceryAttrs (mkDate 2030 12 31)).

Definition sample_today : date := mkDate 2025 6 1.

Definition sample_store : Inventory := [("G1", milk); ("G2", yogurt); ("E1", tv)].

(** A record whose type tag names no class. *)
Definition toy_record : value := VDict (list_to_map [("type", VStr "toy")]).

(** A grocery record, complete, whose expiry date is no date. *)
Definition undated_record : value :=
  VDict (list_to_map
    [("type", VStr "grocery"); ("product_id", VStr "G9"); ("name", VStr "Eggs");
     ("price", VFloat 2.5%float); ("quantity_in_stock", VInt 12);
     ("expiry_date", VStr "2024-13-45")]).

(** A document with a good record followed by a bad one. *)
Definition sample_document : value :=
  VDict (list_to_map [("products", VList [serialize tv; toy_record])]).

(** * Properties *)

(** ** Dates *)

Example strptime_iso : strptime "2024-02-29" = Ok (mkDate 2024 2 29).
Proof. reflexivity. Qed.

Example strptime_unpadded : strptime "2024-3-7" = Ok (mkDate 2024 3 7).
Proof. reflexivity. Qed.

Example strptime_not_a_day : strptime "2023-02-29" = Raise (ValueError TimeDataMismatch).
Proof. reflexivity. Qed.

Example strptime_trailing : strptime "2024-01-315" = Raise (ValueError TimeDataMismatch).
Proof. reflexivity. Qed.

Example strftime_four_digit_year : strftime (mkDate 2024 3 7) = "2024-03-07".
Proof. reflexivity. Qed.

Example strftime_short_year : strftime (mkDate 987 3 7) = "987-03-07".
Proof. reflexivity. Qed.

Lemma digit_digit_char (n : Z) : 0 <= n <= 9 -> digit (digit_char n) = Some n.
Proof.
  intros Hn.
  assert (Forall (fun k => digit (digit_char k) = Some k) (seqZ 0 10)) as Hall
    by compute_done.
  rewrite Forall_forall in Hall. apply Hall, elem_of_seqZ. lia.
Qed.

Lemma match_month_day_pad2 (m d : Z) :
  1 <= m <= 12 -> 1 <= d <= 31 ->
  match_month_day (month_alternatives (pad2 m ++ "-" ++ pad2 d)) = Some (m, d, "").
Proof.
  intros Hm Hd.
  assert (Forall (fun m' => Forall (fun d' =>
            match_month_day (month_alternatives (pad2 m' ++ "-" ++ pad2 d'))
            = Some (m', d', "")) (seqZ 1 31)) (seqZ 1 12)) as Hall by compute_done.
  rewrite Forall_forall in Hall.
  specialize (Hall m). rewrite Forall_forall in Hall.
  apply Hall; apply elem_of_seqZ; lia.
Qed.

Lemma days_in_month_le (y m : Z) : days_in_month y m <= 31.
Proof.
  unfold days_in_month.
  repeat match goal with |- context [if ?b then _ else _] => destruct b end; lia.
Qed.

Lemma date_valid_bounds (d : date) :
  date_valid d = true ->
  1 <= year d <= 9999 /\ 1 <= month d <= 12 /\ 1 <= day d <= 31.
Proof.
  unfold date_valid. intros H.
  repeat (apply andb_prop in H; destruct H as [H ?]).
  pose proof (days_in_month_le (year d) (month d)). lia.
Qed.

Lemma strftime_unfold (d : date) :
  1000 <= year d ->
  strftime d =
  String (digit_char (year d / 1000))
    (String (digit_char (year d / 100 mod 10))
       (String (digit_char (year d / 10 mod 10))
          (String (digit_char (year d mod 10))
             (String "-" (pad2 (month d) ++ "-" ++ pad2 (day d)))))).
Proof.
  intros Hy. unfold strftime, year_text.
  destruct (Z.ltb_spec (year d) 10); [lia |].
  destruct (Z.ltb_spec (year d) 100); [lia |].
  destruct (Z.ltb_spec (year d) 1000); [lia |].
  reflexivity.
Qed.

Lemma strptime_strftime (d : date) :
  date_valid d = true -> 1000 <= year d -> strptime (strftime d) = Ok d.
Proof.
  intros Hv Hlong. destruct (date_valid_bounds d Hv) as (Hy & Hm & Hd).
  unfold strptime. rewrite strftime_unfold by exact Hlong. unfold match_format.
  rewrite !digit_digit_char by (Z.to_euclidean_division_equations; lia).
  change (Ascii.eqb "-" "-") with true. cbv iota.
  rewrite match_month_day_pad2 by lia.
  replace (1000 * (year d / 1000) + 100 * (year d / 100 mod 10)
           + 10 * (year d / 10 mod 10) + year d mod 10)
    with (year d) by (Z.to_euclidean_division_equations; lia).
  destruct d as [y m dd]; simpl in *.
  rewrite Hv. reflexivity.
Qed.

Lemma match_format_short (c1 c2 c3 c4 c5 : ascii) (s : string) :
  digit c2 = None \/ digit c3 = None \/ digit c4 = None ->
  match_format (String c1 (String c2 (String c3 (String c4 (String c5 s))))) = None.
Proof.
  unfold match_format. intros [H | [H | H]]; rewrite H;
    repeat (case_match; try reflexivity).
Qed.

Lemma strptime_strftime_short_year (d : date) :
  0 <= year d < 1000 ->
  strptime (strftime d) = Raise (ValueError TimeDataMismatch).
Proof.
  intros Hy. unfold strptime, strftime, year_text.
  destruct (Z.ltb_spec (year d) 10);
    [| destruct (Z.ltb_spec (year d) 100);
       [| destruct (Z.ltb_spec (year d) 1000); [| lia]]].
  - change (match_format _) with
      (match_format (String (digit_char (year d))
         (String "-" (String (digit_char (month d / 10))
            (String (digit_char (month d mod 10)) (String "-" (pad2 (day d)))))))).
    rewrite match_format_short; [reflexivity | by left].
  - change (match_format _) with
      (match_format (String (digit_char (year d / 10))
         (String (digit_char (year d mod 10))
            (String "-" (String (digit_char (month d / 10))
               (String (digit_char (month d mod 10))
                  (String "-" (pad2 (day d))))))))).
    rewrite match_format_short; [reflexivity | right; by left].
  - change (match_format _) with
      (match_format (String (digit_char (year d / 100))
         (String (digit_char (year d mod 100 / 10))
            (String (digit_char ((year d mod 100) mod 10))
               (String "-" (String (digit_char (month d / 10))
                  (String (digit_char (month d mod 10))
                     (String "-" (pad2 (day d)))))))))).
    rewrite match_format_short; [reflexivity | right; by right].
Qed.

(** ** Round trip through a record *)

Lemma value_of_number_as_float (n : number) : as_float (value_of_number n) = Ok n.
Proof. destruct n; reflexivity. Qed.

Lemma getitem_insert (k k' : string) (v : value) (d : gmap string value) :
  getitem (<[k:=v]> d) k' = if String.eqb k k' then Ok v else getitem d k'.
Proof.
  unfold getitem. destruct (String.eqb_spec k k') as [-> | Hne].
  - by rewrite lookup_insert_eq.
  - by rewrite lookup_insert_ne.
Qed.

Lemma getitem_empty (k : string) : getitem ∅ k = Raise (KeyError k).
Proof. unfold getitem. by rewrite lookup_empty. Qed.

Ltac getitems :=
  repeat (rewrite ?getitem_insert, ?getitem_empty;
          cbn [String.eqb Ascii.eqb Bool.eqb bind]).

Lemma Electronics_from_dict_to_dict (p : Product) (w : Z) (b : string) :
  Electronics.from_dict (Electronics.to_dict p w b)
  = Ok (Electronics.init (_product_id p) (_name p) (_price p) (_quantity_in_stock p) w b).
Proof.
  unfold Electronics.from_dict, Electronics.to_dict.
  cbn [list_to_map foldr uncurry fst snd]. getitems.
  cbn [as_str as_int bind]. rewrite value_of_number_as_float. reflexivity.
Qed.

Lemma Clothing_from_dict_to_dict (p : Product) (s m : string) :
  Clothing.from_dict (Clothing.to_dict p s m)
  = Ok (Clothing.init (_product_id p) (_name p) (_price p) (_quantity_in_stock p) s m).
Proof.
  unfold Clothing.from_dict, Clothing.to_dict.
  cbn [list_to_map foldr uncurry fst snd]. getitems.
  cbn [as_str as_int bind]. rewrite value_of_number_as_float. reflexivity.
Qed.

Lemma Grocery_from_dict_to_dict (p : Product) (d : date) :
  date_valid d = true -> 1000 <= year d ->
  Grocery.from_dict (Grocery.to_dict p d)
  = Ok (Product.init (_product_id p) (_name p) (_price p) (_quantity_in_stock p)
          (GroceryAttrs d)).
Proof.
  intros Hd Hy. unfold Grocery.from_dict, Grocery.to_dict.
  cbn [list_to_map foldr uncurry fst snd]. getitems.
  rewrite strptime_strftime by done.
  cbn [as_str as_int bind]. rewrite value_of_number_as_float. reflexivity.
Qed.

Lemma to_dict_type (p : Product) :
  getitem (to_dict p) "type" =
  Ok (VStr match class_of p with
           | ElectronicsClass => "electronics"
           | GroceryClass => "grocery"
           | _ => "clothing"
           end).
Proof.
  unfold to_dict, class_of.
  destruct (_attrs p); cbn [list_to_map foldr uncurry fst snd
    Electronics.to_dict Grocery.to_dict Clothing.to_dict]; getitems; reflexivity.
Qed.

Lemma Grocery_from_dict_to_dict_short_year (p : Product) (d : date) :
  0 <= year d < 1000 ->
  Grocery.from_dict (Grocery.to_dict p d) = Raise (ValueError TimeDataMismatch).
Proof.
  intros Hy. unfold Grocery.from_dict, Grocery.to_dict.
  cbn [list_to_map foldr uncurry fst snd]. getitems.
  rewrite strptime_strftime_short_year by done. reflexivity.
Qed.

Lemma decode_serialize (p : Product) :
  dated p -> four_digit_year p -> decode (serialize p) = Ok p.
Proof.
  intros Hd Hy. unfold serialize, decode, subscript.
  rewrite to_dict_type. unfold class_of, to_dict, dated, four_digit_year in *.
  destruct p as [pid name price qty attrs]; cbn [_attrs] in *.
  destruct attrs as [w b | d | s m];
    cbn [bind product_classes String.eqb Ascii.eqb Bool.eqb from_dict].
  - rewrite Electronics_from_dict_to_dict. reflexivity.
  - rewrite Grocery_from_dict_to_dict by done. reflexivity.
  - rewrite Clothing_from_dict_to_dict. reflexivity.
Qed.

Lemma decode_serialize_short_year (p : Product) :
  dated p -> ~ four_digit_year p ->
  decode (serialize p) = Raise (ValueError TimeDataMismatch).
Proof.
  intros Hd Hy. unfold serialize, decode, subscript.
  rewrite to_dict_type. unfold class_of, to_dict, dated, four_digit_year in *.
  destruct p as [pid name price qty attrs]; cbn [_attrs] in *.
  destruct attrs as [w b | d | s m]; [done | | done].
  cbn [bind product_classes String.eqb Ascii.eqb Bool.eqb from_dict].
  apply date_valid_bounds in Hd.
  rewrite Grocery_from_dict_to_dict_short_year by lia. reflexivity.
Qed.

(** C5: the round trip fails for a grocery the program can hold.  The
    constructor accepts the expiry date "0987-03-07"; [to_dict] writes the
    year of the date without its leading zero; and decoding the record
    raises the [ValueError] of [strptime], where the round trip law asks
    for the product back. *)
Theorem round_trip_fails_before_year_1000 :
  exists p,
    Grocery.init "G3" "Old" (NFloat 1.5) 3 "0987-03-07" = Ok p /\
    dated p /\
    to_dict p !! "expiry_date" = Some (VStr "987-03-07") /\
    deserialize (serialize p) = Raise (ValueError TimeDataMismatch).
Proof. eexists. split; [reflexivity |]. by split_and!. Qed.

(** X21: [deserialize (serialize p)] returns [p] for every electronics and
    clothing product and for every grocery whose expiry date is in the
    year 1000 or later; for a grocery with an earlier expiry date it raises
    the [ValueError] of [strptime]. *)
Theorem deserialize_serialize_by_year (p : Product) :
  dated p ->
  (four_digit_year p -> deserialize (serialize p) = Ok p) /\
  (~ four_digit_year p ->
   deserialize (serialize p) = Raise (ValueError TimeDataMismatch)).
Proof.
  intros Hd. unfold deserialize. split; intros Hy.
  - by rewrite decode_serialize.
  - by rewrite decode_serialize_short_year.
Qed.

Lemma deserialize_serialize_by_year_witness :
  deserialize (serialize milk) = Ok milk /\
  deserialize (serialize tv) = Ok tv /\
  deserialize (serialize shirt) = Ok shirt /\
  deserialize (serialize (Product.init "G3" "Old" (NFloat 1.5) 3
                            (GroceryAttrs (mkDate 987 3 7))))
  = Raise (ValueError TimeDataMismatch).
Proof.
  destruct (deserialize_serialize_by_year milk eq_refl) as [Hmilk _].
  destruct (deserialize_serialize_by_year tv I) as [Htv _].
  destruct (deserialize_serialize_by_year shirt I) as [Hshirt _].
  destruct (deserialize_serialize_by_year
              (Product.init "G3" "Old" (NFloat 1.5) 3 (GroceryAttrs (mkDate 987 3 7)))
              eq_refl) as [_ Hold].
  split_and!.
  - apply Hmilk. unfold four_digit_year. simpl. lia.
  - apply Htv. exact I.
  - apply Hshirt. exact I.
  - apply Hold. unfold four_digit_year. simpl. lia.
Defined.

(** ** The ordered dict *)

Section DictFacts.
Context {V : Type}.
Implicit Types (k : string) (v : V) (d : list (string * V)).

Lemma dict_get_None k d : dict_get k d = None <-> k ∉ dict_keys d.
Proof.
  induction d as [| [k' v'] d IH]; simpl.
  - split; [intros _; apply not_elem_of_nil | done].
  - rewrite not_elem_of_cons. destruct (String.eqb_spec k k') as [-> | Hne].
    + split; [done | intros [? _]; done].
    + rewrite IH. tauto.
Qed.

Lemma dict_get_set_eq k v d : dict_get k (dict_set k v d) = Some v.
Proof.
  induction d as [| [k' v'] d IH]; simpl.
  - by rewrite String.eqb_refl.
  - destruct (String.eqb_spec k k') as [<- | Hne]; simpl.
    + by rewrite String.eqb_refl.
    + apply String.eqb_neq in Hne. by rewrite Hne.
Qed.

Lemma dict_get_set_ne k k' v d :
  k' <> k -> dict_get k' (dict_set k v d) = dict_get k' d.
Proof.
  intros Hne. induction d as [| [k0 v0] d IH]; simpl.
  - apply String.eqb_neq in Hne. by rewrite Hne.
  - destruct (String.eqb_spec k k0) as [<- | Hk]; simpl.
    + apply String.eqb_neq in Hne. by rewrite Hne.
    + by rewrite IH.
Qed.

Lemma dict_keys_set_present k v d :
  dict_mem k d = true -> dict_keys (dict_set k v d) = dict_keys d.
Proof.
  unfold dict_mem. induction d as [| [k0 v0] d IH]; simpl; [done |].
  destruct (String.eqb_spec k k0) as [<- | Hk]; simpl; [done |].
  intros H. by rewrite IH.
Qed.

Lemma dict_set_absent k v d :
  dict_mem k d = false -> dict_set k v d = (d ++ [(k, v)])%list.
Proof.
  unfold dict_mem. induction d as [| [k0 v0] d IH]; simpl; [done |].
  destruct (String.eqb_spec k k0) as [<- | Hk]; simpl; [done |].
  intros H. by rewrite IH.
Qed.

Lemma dict_mem_false k d : dict_mem k d = false <-> k ∉ dict_keys d.
Proof.
  rewrite <- dict_get_None. unfold dict_mem. destruct (dict_get k d); split; done.
Qed.

Lemma dict_pop_middle k v pre rest :
  k ∉ dict_keys pre ->
  dict_pop k (pre ++ (k, v) :: rest)%list = Some (v, (pre ++ rest)%list).
Proof.
  induction pre as [| [k0 v0] pre IH]; simpl; intros Hnotin.
  - by rewrite String.eqb_refl.
  - apply not_elem_of_cons in Hnotin as [Hne Hnotin].
    apply String.eqb_neq in Hne. rewrite Hne, IH by done. done.
Qed.

Lemma dict_entries_of_key k v d :
  NoDup (dict_keys d) -> dict_get k d = Some v ->
  List.filter (fun entry => String.eqb k (fst entry)) d = [(k, v)].
Proof.
  induction d as [| [k0 v0] d IH]; simpl; [done |].
  intros Hnd Hget. apply NoDup_cons in Hnd as [Hk0 Hnd].
  destruct (String.eqb_spec k k0) as [<- | Hne].
  - injection Hget as ->. f_equal.
    clear IH Hnd. induction d as [| [k1 v1] d IH]; simpl; [done |].
    apply not_elem_of_cons in Hk0 as [Hne Hk0]. simpl in Hne.
    apply String.eqb_neq in Hne. rewrite Hne. by apply IH.
  - by apply IH.
Qed.

End DictFacts.

(** ** Products *)


Example sell_more_than_stock :
  Product.sell 3 tv = (Raise (InsufficientStockError 2 3), tv).
Proof. reflexivity. Qed.

(** C8: no constructor validates the common attributes: for any price and
    any quantity (zero and negative ones too) [Electronics] and [Clothing]
    build the product with exactly these values, and so does [Grocery]
    whenever its expiry date parses. *)
Theorem constructors_do_not_validate
    (product_id name : string) (price : number) (quantity_in_stock : Z) :
  (forall warranty_years brand,
     Electronics.init product_id name price quantity_in_stock warranty_years brand
     = mkProduct product_id name price quantity_in_stock
         (ElectronicsAttrs warranty_years brand)) /\
  (forall size material,
     Clothing.init product_id name price quantity_in_stock size material
     = mkProduct product_id name price quantity_in_stock
         (ClothingAttrs size material)) /\
  (forall expiry_date d,
     strptime expiry_date = Ok d ->
     Grocery.init product_id name price quantity_in_stock expiry_date
     = Ok (mkProduct product_id name price quantity_in_stock (GroceryAttrs d))).
Proof.
  repeat split; try reflexivity.
  intros expiry_date d Hd. unfold Grocery.init. rewrite Hd. reflexivity.
Qed.

(** ** The inventory *)

(** C10: the queries leave the inventory as it is. *)
Theorem queries_do_not_mutate (self : Inventory) (name : string) (product_type : class) :
  snd (Inventory.search_by_name name self) = self /\
  snd (Inventory.search_by_type product_type self) = self /\
  snd (Inventory.list_all_products self) = self /\
  snd (Inventory.total_inventory_value self) = self.
Proof. repeat split. Qed.

Example total_inventory_value_example :
  fst (Inventory.total_inventory_value [("E1", tv); ("C1", shirt)])
  = Ok (NFloat 302%float).
Proof. reflexivity. Qed.

Example search_by_name_ignores_case :
  fst (Inventory.search_by_name "MILK" sample_store) = Ok [milk].
Proof. reflexivity. Qed.

Example search_by_type_grocery :
  fst (Inventory.search_by_type GroceryClass sample_store) = Ok [milk; yogurt].
Proof. reflexivity. Qed.


(** C6: when the store already holds a product under an id, adding a
    second product with that id raises [DuplicateProductError] and leaves
    the store as it was, with one entry for the id: the first product. *)
Theorem add_product_duplicate (self : Inventory) (first second : Product) :
  NoDup (dict_keys self) ->
  dict_get (_product_id second) self = Some first ->
  fst (Inventory.add_product second self)
  = Raise (DuplicateProductError (_product_id second)) /\
  snd (Inventory.add_product second self) = self /\
  List.filter (fun entry => String.eqb (_product_id second) (fst entry))
    (snd (Inventory.add_product second self))
  = [(_product_id second, first)].
Proof.
  intros Hnd Hget. unfold Inventory.add_product, dict_mem. rewrite Hget. simpl.
  repeat split. by apply dict_entries_of_key.
Qed.

Lemma add_product_duplicate_witness :
  fst (Inventory.add_product radio sample_store) = Raise (DuplicateProductError "E1") /\
  snd (Inventory.add_product radio sample_store) = sample_store /\
  List.filter (fun entry => String.eqb "E1" (fst entry))
    (snd (Inventory.add_product radio sample_store))
  = [("E1", tv)].
Proof.
  apply (add_product_duplicate sample_store tv radio).
  - compute_done.
  - reflexivity.
Defined.

(** C9: a successful [sell_product] or [restock_product] changes only the
    stock of the product under the id: the ids and their order, the
    product under every other id, and the id, name, price and subclass
    attributes of the product itself stay as they were. *)
Theorem sell_restock_frame (self : Inventory) (product_id : string)
    (quantity : Z) (product : Product) :
  dict_get product_id self = Some product ->
  (fst (Product.sell quantity product) = Ok tt ->
   let after := snd (Inventory.sell_product product_id quantity self) in
   fst (Inventory.sell_product product_id quantity self) = Ok tt /\
   dict_keys after = dict_keys self /\
   (forall k, k <> product_id -> dict_get k after = dict_get k self) /\
   dict_get product_id after
   = Some (mkProduct (_product_id product) (_name product) (_price product)
             (_quantity_in_stock product - quantity) (_attrs product))) /\
  (fst (Product.restock quantity product) = Ok tt ->
   let after := snd (Inventory.restock_product product_id quantity self) in
   fst (Inventory.restock_product product_id quantity self) = Ok tt /\
   dict_keys after = dict_keys self /\
   (forall k, k <> product_id -> dict_get k after = dict_get k self) /\
   dict_get product_id after
   = Some (mkProduct (_product_id product) (_name product) (_price product)
             (_quantity_in_stock product + quantity) (_attrs product))).
Proof.
  intros Hget.
  assert (dict_mem product_id self = true) as Hmem by (unfold dict_mem; by rewrite Hget).
  split; intros Hok after; subst after;
    unfold Inventory.sell_product, Inventory.restock_product, Inventory.on_product;
    rewrite Hget.
  - unfold Product.sell in *. repeat case_match; try discriminate; simplify_eq; simpl.
    repeat split.
    + by apply dict_keys_set_present.
    + intros k Hk. by apply dict_get_set_ne.
    + apply dict_get_set_eq.
  - unfold Product.restock in *. repeat case_match; try discriminate; simplify_eq; simpl.
    repeat split.
    + by apply dict_keys_set_present.
    + intros k Hk. by apply dict_get_set_ne.
    + apply dict_get_set_eq.
Qed.

Lemma sell_restock_frame_witness :
  dict_get "E1" (snd (Inventory.sell_product "E1" 1 sample_store))
  = Some (mkProduct "E1" "TV" (NFloat 100%float) 1 (ElectronicsAttrs 1 "Acme")) /\
  dict_get "E1" (snd (Inventory.restock_product "E1" 1 sample_store))
  = Some (mkProduct "E1" "TV" (NFloat 100%float) 3 (ElectronicsAttrs 1 "Acme")).
Proof.
  pose proof (sell_restock_frame sample_store "E1" 1 tv eq_refl) as [Hsell Hrestock].
  split.
  - apply (Hsell eq_refl).
  - apply (Hrestock eq_refl).
Defined.

Lemma date_ltb_lexicographic (d1 d2 : date) :
  date_ltb d1 d2 = true <->
  year d1 < year d2 \/
  (year d1 = year d2 /\
   (month d1 < month d2 \/ (month d1 = month d2 /\ day d1 < day d2))).
Proof. unfold date_ltb. lia. Qed.

Lemma expired_test (today : date) (p : Product) :
  isinstance p GroceryClass && Grocery.is_expired today p = expired_grocery today p.
Proof.
  unfold isinstance, class_of, Grocery.is_expired, expired_grocery.
  destruct (_attrs p); reflexivity.
Qed.

Lemma remove_expired_loop_spec (today : date) (items : Inventory) :
  forall (kept : Inventory) (expired : list Product),
    NoDup (dict_keys (kept ++ items)%list) ->
    Inventory.remove_expired_loop today items expired (kept ++ items)%list
    = (Ok (expired ++
           dict_values (List.filter (fun entry => expired_grocery today (snd entry)) items))%list,
       (kept ++ List.filter (fun entry => negb (expired_grocery today (snd entry))) items)%list).
Proof.
  induction items as [| [k p] items IH]; intros kept expired Hnd; simpl.
  - by rewrite !app_nil_r.
  - rewrite expired_test. destruct (expired_grocery today p) eqn:Hexp; simpl.
    + unfold dict_keys in Hnd. rewrite map_app in Hnd. simpl in Hnd.
      rewrite dict_pop_middle.
      * rewrite IH.
        -- by rewrite <- app_assoc.
        -- unfold dict_keys. rewrite map_app.
           apply NoDup_app in Hnd as (Hk & Hdisj & Hi).
           apply NoDup_cons in Hi as [_ Hi].
           apply NoDup_app. repeat split; [done | | done].
           intros x Hx Hx'. apply (Hdisj x Hx). by right.
      * apply NoDup_app in Hnd as (_ & Hdisj & _).
        intros Hin. apply (Hdisj k Hin). by left.
    + replace (kept ++ (k, p) :: items)%list with ((kept ++ [(k, p)]) ++ items)%list
        by (by rewrite <- app_assoc).
      rewrite IH.
      * by rewrite <- app_assoc.
      * by rewrite <- app_assoc.
Qed.

(** C7: [remove_expired_products] removes from the store exactly the
    groceries whose expiry date is before the current date, returns them in
    the order the store held them (an empty list when there is none), and
    leaves every other product where it was. *)
Theorem remove_expired_products_spec (today : date) (self : Inventory) :
  NoDup (dict_keys self) ->
  Inventory.remove_expired_products today self
  = (Ok (dict_values
           (List.filter (fun entry => expired_grocery today (snd entry)) self)),
     List.filter (fun entry => negb (expired_grocery today (snd entry))) self).
Proof.
  intros Hnd. unfold Inventory.remove_expired_products.
  apply (remove_expired_loop_spec today self [] []). exact Hnd.
Qed.

Lemma remove_expired_products_spec_witness :
  Inventory.remove_expired_products sample_today sample_store
  = (Ok [milk], [("G2", yogurt); ("E1", tv)]).
Proof.
  apply (remove_expired_products_spec sample_today sample_store).
  compute_done.
Defined.

(** ** Loading *)

Lemma dict_keys_stored (products : list Product) :
  dict_keys (stored products) = map _product_id products.
Proof. unfold dict_keys, stored. rewrite map_map. reflexivity. Qed.

Lemma load_record_ok (record : value) (product : Product) (self : Inventory) :
  decode record = Ok product ->
  _product_id product ∉ dict_keys self ->
  Inventory.load_record record self
  = (Ok tt, (self ++ [(_product_id product, product)])%list).
Proof.
  intros Hdec Hnew. apply dict_mem_false in Hnew.
  unfold Inventory.load_record, Inventory.add_product.
  rewrite Hdec, Hnew. simpl. by rewrite dict_set_absent.
Qed.

Lemma load_records_ok (records : list value) (products : list Product) :
  Forall2 (fun record product => decode record = Ok product) records products ->
  forall (self : Inventory) (rest : list value),
    NoDup (dict_keys self ++ map _product_id products)%list ->
    Inventory.load_records (records ++ rest) self
    = Inventory.load_records rest (self ++ stored products)%list.
Proof.
  induction 1 as [| record product records products Hdec _ IH]; intros self rest Hnd; simpl.
  - by rewrite app_nil_r.
  - rewrite (load_record_ok record product self Hdec).
    + rewrite IH.
      * by rewrite <- app_assoc.
      * unfold dict_keys in *. rewrite map_app. simpl.
        rewrite <- app_assoc. exact Hnd.
    + apply NoDup_app in Hnd as (_ & Hdisj & _).
      intros Hin. apply (Hdisj _ Hin). by left.
Qed.

Lemma load_record_raises (record : value) (self : Inventory) (e : exn) :
  deserialize record = Raise e \/
  (exists product, decode record = Ok product /\
     _product_id product ∈ dict_keys self /\
     e = DuplicateProductError (_product_id product)) ->
  Inventory.load_record record self = (Raise e, self).
Proof.
  unfold deserialize, Inventory.load_record.
  intros [Hraise | (product & Hdec & Hdup & ->)].
  - destruct (decode record) as [p | e' |]; simpl in Hraise; try discriminate.
    destruct e'; simpl in *; congruence.
  - rewrite Hdec. unfold Inventory.add_product.
    destruct (dict_mem (_product_id product) self) eqn:Hmem; [done |].
    apply dict_mem_false in Hmem. done.
Qed.

(** C1 (as the code has it): [load_from_file] empties the store and then
    adds record after record.  At the first record that fails to decode, or
    whose product id a record before it already used, it raises that error
    and stops: the store then holds the products of the records before the
    bad one, in the order of the document, and nothing of what it held
    before the call. *)
Theorem load_from_file_stops_at_bad_record
    (self : Inventory) (data : value) (records : list value)
    (products : list Product) (bad : value) (rest : list value) (e : exn) :
  subscript data "products" = Ok (VList (records ++ bad :: rest)) ->
  Forall2 (fun record product => decode record = Ok product) records products ->
  NoDup (map _product_id products) ->
  (deserialize bad = Raise e \/
   exists product, decode bad = Ok product /\
     _product_id product ∈ map _product_id products /\
     e = DuplicateProductError (_product_id product)) ->
  Inventory.load_from_file data self = (Raise e, stored products).
Proof.
  intros Hdata Hgood Hnd Hbad. unfold Inventory.load_from_file.
  rewrite Hdata. cbn [bind iterate].
  rewrite (load_records_ok records products Hgood [] (bad :: rest)) by exact Hnd.
  cbn [app Inventory.load_records].
  rewrite (load_record_raises bad (stored products) e); [reflexivity |].
  rewrite dict_keys_stored. exact Hbad.
Qed.

Lemma load_from_file_stops_at_bad_record_witness :
  Inventory.load_from_file sample_document [("C1", shirt)]
  = (Raise (InvalidProductDataError (UnknownProductType (VStr "toy"))), [("E1", tv)]).
Proof.
  apply (load_from_file_stops_at_bad_record
           [("C1", shirt)] sample_document [serialize tv] [tv] toy_record []).
  - reflexivity.
  - repeat constructor.
  - compute_done.
  - left. reflexivity.
Defined.

Lemma load_from_file_keeps_loaded_records :
  fst (Inventory.load_from_file sample_document Inventory.init)
  = Raise (InvalidProductDataError (UnknownProductType (VStr "toy"))) /\
  snd (Inventory.load_from_file sample_document Inventory.init) = [("E1", tv)] /\
  snd (Inventory.load_from_file sample_document Inventory.init) <> [].
Proof. repeat split. discriminate. Qed.

(** ** Decoding a record *)

Lemma except_KeyError_invalid {A : Type} (r : result A) :
  (exists why, except_KeyError r = Raise (InvalidProductDataError why)) <-> invalid_data r.
Proof.
  destruct r as [a | e |]; simpl.
  - split; [intros [? ?]; discriminate | done].
  - destruct e; simpl; split; try done; try (intros [? ?]; discriminate); eauto.
  - split; [intros [? ?]; discriminate | done].
Qed.

Lemma invalid_data_bind {A B : Type} (r : result A) (k : A -> result B) :
  ~ invalid_data r -> (forall a, ~ invalid_data (k a)) -> ~ invalid_data (bind r k).
Proof. destruct r as [a | e |]; simpl; auto. Qed.

Lemma strptime_result (s : string) :
  (exists d, strptime s = Ok d) \/ strptime s = Raise (ValueError TimeDataMismatch).
Proof.
  unfold strptime. repeat case_match; eauto.
Qed.

Lemma as_str_valid (v : value) : ~ invalid_data (as_str v).
Proof. destruct v; simpl; auto. Qed.

Lemma as_int_valid (v : value) : ~ invalid_data (as_int v).
Proof. destruct v; simpl; auto. Qed.

Lemma as_float_valid (v : value) : ~ invalid_data (as_float v).
Proof. destruct v; simpl; auto. Qed.

Lemma strptime_valid (s : string) : ~ invalid_data (strptime s).
Proof. destruct (strptime_result s) as [[d ->] | ->]; simpl; auto. Qed.

Create HintDb decode.
#[local] Hint Resolve as_str_valid as_int_valid as_float_valid strptime_valid : decode.

Ltac valid_rest :=
  repeat (apply invalid_data_bind; [auto with decode | intros ?]);
  simpl; auto with decode.

Ltac lookup_fields data :=
  repeat match goal with
  | |- context [data !! ?key] =>
      let E := fresh "E" in
      destruct (data !! key) eqn:E; cbn [bind];
      [| split;
         [intros _; eexists; split; [| exact E]; set_solver
         | done]]
  end.

Ltac no_field_missing :=
  split; [| intros (key & Hin & Hnone);
            repeat (apply elem_of_cons in Hin as [-> | Hin]; [congruence |]);
            by apply elem_of_nil in Hin].

Lemma from_dict_invalid (tag : string) (cls : class) (data : gmap string value) :
  product_classes (VStr tag) = Ok (Some cls) ->
  invalid_data (from_dict cls data) <->
  exists key, key ∈ required_fields tag /\ data !! key = None.
Proof.
  unfold product_classes, required_fields.
  destruct (String.eqb tag "electronics");
    [| destruct (String.eqb tag "grocery");
       [| destruct (String.eqb tag "clothing")]];
    intros Hcls; simplify_eq; cbn [from_dict].
  - unfold Electronics.from_dict, getitem. lookup_fields data.
    no_field_missing. intros Hinv; exfalso; revert Hinv. valid_rest.
  - unfold Grocery.from_dict, getitem. lookup_fields data.
    no_field_missing. intros Hinv; exfalso; revert Hinv.
    apply invalid_data_bind; [case_match; simpl; auto with decode | intros ?].
    valid_rest.
  - unfold Clothing.from_dict, getitem. lookup_fields data.
    no_field_missing. intros Hinv; exfalso; revert Hinv. valid_rest.
Qed.

Lemma product_classes_str (tag : string) :
  (recognised (VStr tag) /\ exists cls, product_classes (VStr tag) = Ok (Some cls)) \/
  (~ recognised (VStr tag) /\ product_classes (VStr tag) = Ok None).
Proof.
  unfold product_classes, recognised.
  destruct (String.eqb_spec tag "electronics") as [-> | H1]; [left; eauto |].
  destruct (String.eqb_spec tag "grocery") as [-> | H2]; [left; eauto |].
  destruct (String.eqb_spec tag "clothing") as [-> | H3]; [left; eauto |].
  right. split; [| reflexivity]. intros [H | [H | H]]; congruence.
Qed.

(** X22: what the one clause [except KeyError] amounts to.  Decoding a
    record raises [InvalidProductDataError] exactly when the record has no
    "type", when its "type" is a hashable value other than the three names,
    or when a key its class reads is absent.  A grocery record with every
    key whose "expiry_date" is text that is not a date raises the
    [ValueError] of [strptime], which no clause converts. *)
Theorem deserialize_invalid_product_data (data : gmap string value) :
  ((exists why, deserialize (VDict data) = Raise (InvalidProductDataError why)) <->
   (data !! "type" = None \/
    (exists tag, data !! "type" = Some tag /\ hashable tag /\ ~ recognised tag) \/
    (exists tag key, data !! "type" = Some (VStr tag) /\ recognised (VStr tag) /\
       key ∈ required_fields tag /\ data !! key = None)))
  /\
  (forall text,
     data !! "type" = Some (VStr "grocery") ->
     (forall key, key ∈ required_fields "grocery" -> data !! key <> None) ->
     data !! "expiry_date" = Some (VStr text) ->
     (forall d, strptime text <> Ok d) ->
     deserialize (VDict data) = Raise (ValueError TimeDataMismatch)).
Proof.
  split.
  - unfold deserialize. rewrite except_KeyError_invalid.
    unfold decode, subscript, getitem.
    destruct (data !! "type") as [tag |] eqn:Htype; cbn [bind]; [| split; auto; done].
    destruct tag as [| b | z | f | tag | l | d];
      try (cbn; split; [intros _; right; left; eexists; split; [done |];
                        split; [exact I | intros [H | [H | H]]; discriminate]
                       | done]).
    + destruct (product_classes_str tag) as [[Hrec [cls Hcls]] | [Hnot Hcls]];
        rewrite Hcls; cbn [bind].
      * rewrite (from_dict_invalid tag cls data Hcls). split.
        -- intros (key & Hin & Hnone). right; right. by exists tag, key.
        -- intros [H | [(tag' & Htag & _ & Hnot) | (tag' & key & Htag & _ & Hin & Hnone)]];
             [discriminate | by simplify_eq | simplify_eq; eauto].
      * split; [intros _; right; left; by exists (VStr tag) | done].
    + cbn. split; [done |].
      intros [H | [(tag' & Htag & Hh & _) | (tag' & key & Htag & _)]];
        [discriminate | by simplify_eq | discriminate].
    + cbn. split; [done |].
      intros [H | [(tag' & Htag & Hh & _) | (tag' & key & Htag & _)]];
        [discriminate | by simplify_eq | discriminate].
  - intros text Htype Hall Hdate Hbad.
    unfold deserialize, decode, subscript, getitem. rewrite Htype. cbn.
    unfold Grocery.from_dict, getitem.
    destruct (data !! "product_id") eqn:E1; [| exfalso; apply (Hall "product_id"); [set_solver | done]].
    destruct (data !! "name") eqn:E2; [| exfalso; apply (Hall "name"); [set_solver | done]].
    destruct (data !! "price") eqn:E3; [| exfalso; apply (Hall "price"); [set_solver | done]].
    destruct (data !! "quantity_in_stock") eqn:E4;
      [| exfalso; apply (Hall "quantity_in_stock"); [set_solver | done]].
    rewrite Hdate. cbn [bind].
    destruct (strptime_result text) as [[d Hd] | ->]; [by destruct (Hbad d) | reflexivity].
Qed.

(** C2: loading invalid product data that is not reported as
    [InvalidProductDataError].  A grocery record with every key and the
    expiry date "2024-13-45" raises the [ValueError] of [strptime], and a
    record whose type tag is a list raises [TypeError]: the [try] block
    converts a [KeyError] only. *)
Theorem deserialize_bad_date_is_ValueError :
  strptime "2024-13-45" = Raise (ValueError TimeDataMismatch) /\
  deserialize undated_record = Raise (ValueError TimeDataMismatch) /\
  (forall why, deserialize undated_record <> Raise (InvalidProductDataError why)) /\
  deserialize (VDict (list_to_map [("type", VList [])])) = Raise TypeError.
Proof. repeat split. discriminate. Qed.

(** ** The invariant of a product *)

Lemma float_not_le_zero (f : float) :
  PrimFloat.leb f PrimFloat.zero = false <->
  PrimFloat.ltb PrimFloat.zero f = true \/ PrimFloat.is_nan f = true.
Proof.
  unfold PrimFloat.is_nan.
  rewrite leb_spec, ltb_spec, FloatAxioms.eqb_spec.
  change (Prim2SF PrimFloat.zero) with (S754_zero false).
  destruct (Prim2SF f) as [s | s | | s m e]; try destruct s; cbn;
    rewrite ?Z.compare_refl, ?Pos.compare_cont_refl; cbn;
    (split; [intros H | intros [H | H]]); try discriminate; auto.
Qed.

Lemma number_le0_false (x : number) : number_le0 x = false <-> positive_or_nan x.
Proof.
  unfold positive_or_nan. destruct x as [z | f]; simpl.
  - split; [intros H; left; lia | intros [H | (f & H & _)]; [lia | discriminate]].
  - rewrite float_not_le_zero. split.
    + intros [H | H]; [by left | right; eauto].
    + intros [H | (g & Hg & H)]; [by left | right; congruence].
Qed.

Lemma mutation_invariant (p p' : Product) :
  invariant p -> mutation p p' -> invariant p'.
Proof.
  unfold invariant. intros [Hprice Hqty] [[q ->] | [[a ->] | [x ->]]].
  - unfold Product.sell. repeat case_match; simpl; split; auto; lia.
  - unfold Product.restock. repeat case_match; simpl; split; auto; lia.
  - unfold Product.set_price. destruct (number_le0 x) eqn:Hx; simpl; auto.
Qed.

(** C3 (as the code has it): a product created with a price above zero and
    a stock of zero or more, and then changed only by [sell], [restock] and
    the price setter, keeps a stock of zero or more and a price that is
    above zero or NaN.  Nothing is checked when the product is created. *)
Theorem invariant_preserved (p p' : Product) :
  number_gt0 (_price p) = true ->
  0 <= _quantity_in_stock p ->
  rtc mutation p p' ->
  positive_or_nan (_price p') /\ 0 <= _quantity_in_stock p'.
Proof.
  intros Hprice Hqty Hreach.
  assert (invariant p) as Hinv
    by (split; [apply number_le0_false; by left | exact Hqty]).
  clear Hprice Hqty.
  induction Hreach as [p | p p1 p' Hstep _ IH].
  - destruct Hinv as [Hp Hq]. split; [by apply number_le0_false | exact Hq].
  - apply IH. exact (mutation_invariant p p1 Hinv Hstep).
Qed.


Lemma invariant_preserved_witness :
  positive_or_nan (_price (snd (Product.sell 1 tv))) /\
  0 <= _quantity_in_stock (snd (Product.sell 1 tv)).
Proof.
  apply (invariant_preserved tv (snd (Product.sell 1 tv))).
  - reflexivity.
  - simpl. lia.
  - apply rtc_once. left. exists 1. reflexivity.
Defined.

Lemma constructed_product_breaks_invariant :
  (let p := Electronics.init "E1" "TV" (NFloat (-5)%float) (-3) 1 "Acme" in
   number_gt0 (_price p) = false /\ _quantity_in_stock p < 0) /\
  (let r := Product.set_price (NFloat PrimFloat.nan) tv in
   fst r = Ok tt /\ number_gt0 (_price (snd r)) = false).
Proof. repeat split. Qed.

(** ** The store as a dict *)

Lemma dict_pop_Some {V : Type} (k : string) (d d' : list (string * V)) (v : V) :
  dict_pop k d = Some (v, d') ->
  exists pre rest, d = (pre ++ (k, v) :: rest)%list /\ d' = (pre ++ rest)%list.
Proof.
  revert d'. induction d as [| [k0 v0] d IH]; simpl; intros d' Hpop; [done |].
  destruct (String.eqb_spec k k0) as [-> | Hne].
  - simplify_eq. by exists [], d'.
  - destruct (dict_pop k d) as [[w d''] |] eqn:E; [| done]. simplify_eq.
    destruct (IH d'' eq_refl) as (pre & rest & -> & ->).
    by exists ((k0, v0) :: pre), rest.
Qed.

Lemma dict_set_present {V : Type} (k : string) (v v0 : V) (d : list (string * V)) :
  dict_get k d = Some v0 ->
  exists pre rest,
    d = (pre ++ (k, v0) :: rest)%list /\ dict_set k v d = (pre ++ (k, v) :: rest)%list.
Proof.
  induction d as [| [k0 w] d IH]; simpl; intros Hget; [done |].
  destruct (String.eqb_spec k k0) as [-> | Hne].
  - simplify_eq. by exists [], d.
  - destruct (IH Hget) as (pre & rest & -> & ->).
    by exists ((k0, w) :: pre), rest.
Qed.

Lemma store_ok_remove (pre rest : Inventory) (entry : string * Product) :
  store_ok (pre ++ entry :: rest) -> store_ok (pre ++ rest).
Proof.
  unfold store_ok, dict_keys. rewrite !map_app. simpl.
  intros [Hnd Hids]. split.
  - apply NoDup_app in Hnd as (Hpre & Hdisj & Hrest).
    apply NoDup_cons in Hrest as [_ Hrest].
    apply NoDup_app. repeat split; [done | | done].
    intros x Hx Hx'. apply (Hdisj x Hx). by right.
  - apply Forall_app in Hids as [Hpre Hrest].
    apply Forall_cons in Hrest as [_ Hrest]. by apply Forall_app.
Qed.

Lemma store_ok_replace (pre rest : Inventory) (k : string) (p p' : Product) :
  _product_id p' = _product_id p ->
  store_ok (pre ++ (k, p) :: rest) -> store_ok (pre ++ (k, p') :: rest).
Proof.
  unfold store_ok, dict_keys. rewrite !map_app. simpl.
  intros Hid [Hnd Hids]. split; [done |].
  apply Forall_app in Hids as [Hpre Hrest].
  apply Forall_cons in Hrest as [Hk Hrest].
  apply Forall_app. split; [done |]. apply Forall_cons. split; [| done].
  simpl in *. congruence.
Qed.

Lemma store_ok_add (self : Inventory) (product : Product) :
  store_ok self -> store_ok (snd (Inventory.add_product product self)).
Proof.
  intros Hok. unfold Inventory.add_product.
  destruct (dict_mem (_product_id product) self) eqn:Hmem; simpl; [done |].
  rewrite dict_set_absent by done. apply dict_mem_false in Hmem.
  destruct Hok as [Hnd Hids]. unfold store_ok, dict_keys in *. rewrite map_app. split.
  - apply NoDup_app. repeat split; [done | | apply NoDup_singleton].
    intros x Hx Hx'. apply list_elem_of_singleton in Hx'. simpl in Hx'. by subst.
  - apply Forall_app. split; [done |]. by apply Forall_singleton.
Qed.

Lemma store_ok_on_product {A : Type} (self : Inventory) (product_id : string)
    (m : method Product A) :
  (forall p, _product_id (snd (m p)) = _product_id p) ->
  store_ok self -> store_ok (snd (Inventory.on_product product_id m self)).
Proof.
  intros Hm Hok. unfold Inventory.on_product.
  destruct (dict_get product_id self) as [p |] eqn:Hget; [| done].
  destruct (m p) as [r p'] eqn:Hcall. simpl.
  destruct (dict_set_present product_id p' p self Hget) as (pre & rest & -> & ->).
  apply (store_ok_replace pre rest product_id p p'); [| done].
  specialize (Hm p). by rewrite Hcall in Hm.
Qed.

Lemma store_ok_filter (self : Inventory) (keep : string * Product -> bool) :
  store_ok self -> store_ok (List.filter keep self).
Proof.
  induction self as [| entry self IH]; simpl; [done |].
  intros Hok. pose proof (store_ok_remove [] self entry Hok) as Hrest.
  destruct (keep entry); [| by apply IH].
  destruct Hok as [Hnd Hids]. specialize (IH Hrest) as [Hnd' Hids'].
  unfold store_ok, dict_keys in *. simpl in *.
  apply NoDup_cons in Hnd as [Hnew _]. apply Forall_cons in Hids as [Hid _].
  split; [| by apply Forall_cons].
  apply NoDup_cons. split; [| done].
  intros Hin. apply Hnew. apply list_elem_of_In, in_map_iff in Hin as (e & <- & He).
  apply filter_In in He as [He _]. apply list_elem_of_In, in_map_iff. eauto.
Qed.

Lemma store_ok_load_records (records : list value) :
  forall self, store_ok self -> store_ok (snd (Inventory.load_records records self)).
Proof.
  induction records as [| record records IH]; intros self Hok; simpl; [done |].
  assert (store_ok (snd (Inventory.load_record record self))) as Hone.
  { unfold Inventory.load_record. destruct (decode record) as [p | e |]; simpl; [| done | done].
    pose proof (store_ok_add self p Hok) as Hadd.
    by destruct (Inventory.add_product p self). }
  destruct (Inventory.load_record record self) as [[[] | e |] self']; simpl in *; auto.
Qed.

(** X1: a store that is a dict of products under their own ids stays one
    under every operation of [Inventory] that changes it, whether the
    operation returns or raises. *)
Theorem store_ok_preserved (self : Inventory) (product : Product)
    (product_id : string) (quantity : Z) (today : date) (data : value) :
  store_ok self ->
  store_ok (snd (Inventory.add_product product self)) /\
  store_ok (snd (Inventory.remove_product product_id self)) /\
  store_ok (snd (Inventory.sell_product product_id quantity self)) /\
  store_ok (snd (Inventory.restock_product product_id quantity self)) /\
  store_ok (snd (Inventory.remove_expired_products today self)) /\
  store_ok (snd (Inventory.load_from_file data self)).
Proof.
  intros Hok. split_and!.
  - by apply store_ok_add.
  - unfold Inventory.remove_product.
    destruct (dict_pop product_id self) as [[p rest] |] eqn:Hpop; [| done].
    apply dict_pop_Some in Hpop as (pre & rest' & -> & ->). simpl.
    by apply store_ok_remove in Hok.
  - apply store_ok_on_product; [| done].
    intros p. unfold Product.sell. by repeat case_match.
  - apply store_ok_on_product; [| done].
    intros p. unfold Product.restock. by repeat case_match.
  - unfold Inventory.remove_expired_products.
    pose proof (remove_expired_loop_spec today self [] [] (proj1 Hok)) as Hloop.
    simpl in Hloop. rewrite Hloop. simpl. by apply store_ok_filter.
  - unfold Inventory.load_from_file.
    assert (store_ok []) as Hnil by (split; constructor).
    destruct (products <- subscript data "products";; iterate products); [| done | done].
    by apply store_ok_load_records.
Qed.

Lemma store_ok_preserved_witness :
  store_ok (snd (Inventory.add_product shirt sample_store)) /\
  store_ok (snd (Inventory.remove_product "G2" sample_store)) /\
  store_ok (snd (Inventory.sell_product "G2" 1 sample_store)) /\
  store_ok (snd (Inventory.restock_product "G2" 1 sample_store)) /\
  store_ok (snd (Inventory.remove_expired_products sample_today sample_store)) /\
  store_ok (snd (Inventory.load_from_file sample_document sample_store)).
Proof.
  apply (store_ok_preserved sample_store shirt "G2" 1 sample_today sample_document).
  split; [compute_done | repeat constructor].
Defined.

Lemma stored_values (self : Inventory) :
  Forall (fun entry => fst entry = _product_id (snd entry)) self ->
  stored (dict_values self) = self.
Proof.
  unfold stored, dict_values. induction 1 as [| [k p] self Hk _ IH]; simpl; [done |].
  simpl in Hk. by rewrite IH, Hk.
Qed.

(** X2: a store whose ints [json.dump] can write and whose groceries
    expire in the year 1000 or later is saved by [save_to_file], and
    loading the document saved, into any store, gives back the store
    saved: the same products under the same ids in the same order. *)
Theorem save_then_load (self other : Inventory) :
  store_ok self ->
  Forall (fun entry => dated (snd entry) /\ four_digit_year (snd entry)) self ->
  Forall (fun entry => json_dumpable (snd entry) = true) self ->
  exists document,
    Inventory.save_to_file self = (Ok document, self) /\
    Inventory.load_from_file document other = (Ok tt, self).
Proof.
  intros [Hnd Hids] Hdated Hdump. unfold Inventory.save_to_file.
  assert (forallb json_dumpable (dict_values self) = true) as ->.
  { apply forallb_forall. intros p Hp. unfold dict_values in Hp.
    apply in_map_iff in Hp as (entry & <- & Hentry).
    rewrite Forall_forall in Hdump. by apply Hdump, list_elem_of_In. }
  eexists. split; [reflexivity |].
  unfold Inventory.load_from_file, subscript.
  cbn [list_to_map foldr uncurry fst snd]. rewrite getitem_insert. cbn [String.eqb Ascii.eqb Bool.eqb bind iterate].
  rewrite <- (app_nil_r (map serialize (dict_values self))).
  rewrite (load_records_ok _ (dict_values self)).
  - simpl. by rewrite stored_values.
  - unfold dict_values. clear Hnd Hids Hdump.
    induction Hdated as [| [k p] self [Hp Hy] _ IH]; simpl; constructor; [| done].
    by apply decode_serialize.
  - simpl.
    replace (map _product_id (dict_values self)) with (dict_keys self); [done |].
    unfold dict_keys, dict_values. clear Hnd Hdated Hdump.
    induction Hids as [| [k p] self Hk _ IH]; simpl; [done |].
    simpl in Hk. by rewrite IH, Hk.
Qed.

Lemma save_then_load_witness :
  exists document,
    Inventory.save_to_file sample_store = (Ok document, sample_store) /\
    Inventory.load_from_file document [("C1", shirt)] = (Ok tt, sample_store).
Proof.
  apply (save_then_load sample_store [("C1", shirt)]).
  - split; [compute_done | repeat constructor].
  - do 3 (constructor; [split; by vm_compute |]). constructor.
  - do 3 (constructor; [by vm_compute |]). constructor.
Defined.

(** X3: [restock(amount)] raises [ValueError] when [amount <= 0] and leaves
    the product as it was; otherwise the stock goes up by exactly [amount]. *)
Theorem restock_cases (self : Product) (amount : Z) :
  (amount <= 0 ->
   Product.restock amount self
   = (Raise (ValueError RestockAmountMustBePositive), self)) /\
  (0 < amount ->
   Product.restock amount self
   = (Ok tt,
      mkProduct (_product_id self) (_name self) (_price self)
        (_quantity_in_stock self + amount) (_attrs self))).
Proof.
  unfold Product.restock, Product.with_quantity.
  split; intros; case_match; try reflexivity; lia.
Qed.

(** X4: the price setter raises [ValueError] on zero and on every price
    below zero and leaves the price as it was; every price it accepts
    replaces the old one. *)
Theorem set_price_cases (self : Product) (new_price : number) :
  (number_le0 new_price = true ->
   Product.set_price new_price self
   = (Raise (ValueError PriceMustBePositive), self)) /\
  (number_le0 new_price = false ->
   Product.set_price new_price self
   = (Ok tt,
      mkProduct (_product_id self) (_name self) new_price
        (_quantity_in_stock self) (_attrs self))) /\
  (forall z, z <= 0 -> number_le0 (NInt z) = true) /\
  number_le0 (NFloat PrimFloat.zero) = true /\
  number_le0 (NFloat PrimFloat.neg_zero) = true.
Proof.
  unfold Product.set_price, Product.with_price.
  split_and!; try reflexivity.
  - by intros ->.
  - by intros ->.
  - intros z Hz. simpl. lia.
Qed.

(** X5: [add_product] of a product whose id the store does not hold puts
    it last in the store, under its id. *)
Theorem add_product_new (self : Inventory) (product : Product) :
  dict_get (_product_id product) self = None ->
  Inventory.add_product product self
  = (Ok tt, (self ++ [(_product_id product, product)])%list).
Proof.
  intros Hnew. unfold Inventory.add_product, dict_mem. rewrite Hnew.
  rewrite dict_set_absent; [done |]. unfold dict_mem. by rewrite Hnew.
Qed.

Lemma add_product_new_witness :
  Inventory.add_product shirt sample_store
  = (Ok tt, [("G1", milk); ("G2", yogurt); ("E1", tv); ("C1", shirt)]).
Proof. apply (add_product_new sample_store shirt). reflexivity. Defined.

(** X6: [remove_product] raises [KeyError] for an id the store does not
    hold and leaves the store as it was; otherwise it deletes the entry of
    the id and keeps the others in their order. *)
Theorem remove_product_cases (self : Inventory) (product_id : string) :
  (dict_get product_id self = None ->
   Inventory.remove_product product_id self
   = (Raise (KeyError ("Product ID " ++ product_id ++ " not found")), self)) /\
  (forall before product after,
     self = (before ++ (product_id, product) :: after)%list ->
     product_id ∉ dict_keys before ->
     Inventory.remove_product product_id self = (Ok tt, (before ++ after)%list)).
Proof.
  unfold Inventory.remove_product. split.
  - intros Hget. destruct (dict_pop product_id self) as [[p rest] |] eqn:Hpop; [| done].
    apply dict_pop_Some in Hpop as (pre & rest' & -> & _).
    exfalso. apply dict_get_None in Hget. apply Hget.
    unfold dict_keys. rewrite map_app. simpl. apply elem_of_app. right. by left.
  - intros before product after -> Hfirst. by rewrite dict_pop_middle.
Qed.

(** ** Selling and restocking through the inventory *)

Lemma dict_set_same {V : Type} (k : string) (v : V) (d : list (string * V)) :
  dict_get k d = Some v -> dict_set k v d = d.
Proof.
  induction d as [| [k0 v0] d IH]; simpl; [done |].
  destruct (String.eqb_spec k k0) as [-> | Hne]; intros Hget.
  - by simplify_eq.
  - by rewrite IH.
Qed.

(** X7: [sell_product] and [restock_product] raise [KeyError] for an id
    the store does not hold, and pass on the error of the product's own
    [sell] or [restock]; in both cases the store is left as it was. *)
Theorem sell_restock_product_failures (self : Inventory) (product_id : string)
    (quantity : Z) :
  (dict_get product_id self = None ->
   Inventory.sell_product product_id quantity self
   = (Raise (KeyError ("Product ID " ++ product_id ++ " not found")), self) /\
   Inventory.restock_product product_id quantity self
   = (Raise (KeyError ("Product ID " ++ product_id ++ " not found")), self)) /\
  (forall product e,
     dict_get product_id self = Some product ->
     (fst (Product.sell quantity product) = Raise e ->
      Inventory.sell_product product_id quantity self = (Raise e, self)) /\
     (fst (Product.restock quantity product) = Raise e ->
      Inventory.restock_product product_id quantity self = (Raise e, self))).
Proof.
  unfold Inventory.sell_product, Inventory.restock_product, Inventory.on_product,
    Inventory.not_found.
  split.
  - intros ->. done.
  - intros product e Hget. rewrite Hget. split; intros Hraise.
    + unfold Product.sell in *. repeat case_match; simplify_eq; simpl in *;
        simplify_eq; by rewrite dict_set_same.
    + unfold Product.restock in *. repeat case_match; simplify_eq; simpl in *;
        simplify_eq; by rewrite dict_set_same.
Qed.

Lemma sell_restock_product_failures_witness :
  Inventory.sell_product "Z9" 1 sample_store
  = (Raise (KeyError "Product ID Z9 not found"), sample_store) /\
  Inventory.sell_product "E1" 5 sample_store
  = (Raise (InsufficientStockError 2 5), sample_store) /\
  Inventory.restock_product "E1" 0 sample_store
  = (Raise (ValueError RestockAmountMustBePositive), sample_store).
Proof.
  pose proof (sell_restock_product_failures sample_store "Z9" 1) as [Habsent _].
  pose proof (sell_restock_product_failures sample_store "E1" 5) as [_ Hsell].
  pose proof (sell_restock_product_failures sample_store "E1" 0) as [_ Hrestock].
  split_and!.
  - apply (Habsent eq_refl).
  - apply (Hsell tv (InsufficientStockError 2 5) eq_refl). reflexivity.
  - apply (Hrestock tv (ValueError RestockAmountMustBePositive) eq_refl). reflexivity.
Defined.

(** X8: a sale that succeeds is undone by restocking the same quantity,
    and a restock that succeeds on a stock of zero or more is undone by
    selling the same quantity: the product is again what it was. *)
Theorem sell_restock_inverse (self : Product) (quantity : Z) :
  (fst (Product.sell quantity self) = Ok tt ->
   Product.restock quantity (snd (Product.sell quantity self)) = (Ok tt, self)) /\
  (0 <= _quantity_in_stock self ->
   fst (Product.restock quantity self) = Ok tt ->
   Product.sell quantity (snd (Product.restock quantity self)) = (Ok tt, self)).
Proof.
  destruct self as [pid name price stock attrs].
  unfold Product.sell, Product.restock, Product.with_quantity; simpl.
  split; intros; repeat (case_match; simpl in *); try discriminate;
    try lia; repeat f_equal; lia.
Qed.

Lemma sell_restock_inverse_witness :
  Product.restock 2 (snd (Product.sell 2 tv)) = (Ok tt, tv) /\
  Product.sell 7 (snd (Product.restock 7 tv)) = (Ok tt, tv).
Proof.
  destruct (sell_restock_inverse tv 2) as [Hsell _].
  destruct (sell_restock_inverse tv 7) as [_ Hrestock].
  split.
  - apply Hsell. reflexivity.
  - apply Hrestock; [simpl; lia | reflexivity].
Defined.

(** ** Pruning twice *)

Lemma NoDup_keys_filter {V : Type} (d : list (string * V)) (keep : string * V -> bool) :
  NoDup (dict_keys d) -> NoDup (dict_keys (List.filter keep d)).
Proof.
  unfold dict_keys. induction d as [| entry d IH]; simpl; [done |].
  intros Hnd. apply NoDup_cons in Hnd as [Hnew Hnd].
  destruct (keep entry); simpl; [| by apply IH].
  apply NoDup_cons. split; [| by apply IH].
  intros Hin. apply Hnew.
  apply list_elem_of_In, in_map_iff in Hin as (e & <- & He).
  apply filter_In in He as [He _]. apply list_elem_of_In, in_map_iff. eauto.
Qed.

Lemma filter_filter_same {A : Type} (f : A -> bool) (l : list A) :
  List.filter f (List.filter f l) = List.filter f l.
Proof.
  induction l as [| a l IH]; simpl; [done |].
  destruct (f a) eqn:Hf; simpl; [by rewrite Hf, IH | done].
Qed.

Lemma filter_filter_negb {A : Type} (f : A -> bool) (l : list A) :
  List.filter f (List.filter (fun a => negb (f a)) l) = [].
Proof.
  induction l as [| a l IH]; simpl; [done |].
  destruct (f a) eqn:Hf; simpl; [done | by rewrite Hf].
Qed.

Lemma filter_lengths {A : Type} (f : A -> bool) (l : list A) :
  (length (List.filter f l) + length (List.filter (fun a => negb (f a)) l))%nat
  = length l.
Proof.
  induction l as [| a l IH]; simpl; [done |].
  destruct (f a); simpl; lia.
Qed.

(** X9: after [remove_expired_products] the store holds no grocery that is
    past its date, a second call at the same date returns the empty list
    and changes nothing, and the products returned and the products kept
    are as many as the store held. *)
Theorem remove_expired_products_twice (today : date) (self : Inventory) :
  NoDup (dict_keys self) ->
  exists expired,
    fst (Inventory.remove_expired_products today self) = Ok expired /\
    let after := snd (Inventory.remove_expired_products today self) in
    Forall (fun p => expired_grocery today p = false) (dict_values after) /\
    Inventory.remove_expired_products today after = (Ok [], after) /\
    (length expired + length after)%nat = length self.
Proof.
  intros Hnd. unfold Inventory.remove_expired_products.
  pose proof (remove_expired_loop_spec today self [] [] Hnd) as Hfirst.
  simpl in Hfirst. rewrite Hfirst. simpl.
  eexists. split; [reflexivity |]. split_and!.
  - unfold dict_values. apply Forall_forall. intros p Hp.
    apply list_elem_of_In, in_map_iff in Hp as ([k q] & <- & Hq).
    apply filter_In in Hq as [_ Hq]. simpl in *. by destruct (expired_grocery today q).
  - pose proof (remove_expired_loop_spec today
        (List.filter (fun entry => negb (expired_grocery today (snd entry))) self) [] []
        (NoDup_keys_filter self _ Hnd)) as Hsecond.
    simpl in Hsecond. rewrite Hsecond.
    rewrite (filter_filter_negb (fun entry => expired_grocery today (snd entry))).
    by rewrite (filter_filter_same (fun entry => negb (expired_grocery today (snd entry)))).
  - unfold dict_values. rewrite length_map.
    apply (filter_lengths (fun entry => expired_grocery today (snd entry))).
Qed.

Lemma remove_expired_products_twice_witness :
  exists expired,
    fst (Inventory.remove_expired_products sample_today sample_store) = Ok expired /\
    let after := snd (Inventory.remove_expired_products sample_today sample_store) in
    Forall (fun p => expired_grocery sample_today p = false) (dict_values after) /\
    Inventory.remove_expired_products sample_today after = (Ok [], after) /\
    (length expired + length after)%nat = length sample_store.
Proof.
  apply (remove_expired_products_twice sample_today sample_store). compute_done.
Defined.

(** ** Expiry *)

(** X10: a grocery is not expired on its expiry date, only after it; and
    once expired it is expired at every later date. *)
Theorem is_expired_strict_and_monotone (self : Product) (expiry_date : date) :
  _attrs self = GroceryAttrs expiry_date ->
  Grocery.is_expired expiry_date self = false /\
  (forall today later,
     Grocery.is_expired today self = true ->
     date_ltb later today = false ->
     Grocery.is_expired later self = true).
Proof.
  intros Hattrs. unfold Grocery.is_expired. rewrite Hattrs. split.
  - unfold date_ltb. lia.
  - intros today later. unfold date_ltb. lia.
Qed.

Lemma is_expired_strict_and_monotone_witness :
  Grocery.is_expired (mkDate 2024 1 1) milk = false /\
  (forall today later,
     Grocery.is_expired today milk = true ->
     date_ltb later today = false ->
     Grocery.is_expired later milk = true).
Proof. apply (is_expired_strict_and_monotone milk (mkDate 2024 1 1)). reflexivity. Defined.

(** ** Every product has a date *)

Lemma bind_Ok {A B : Type} (r : result A) (k : A -> result B) (b : B) :
  bind r k = Ok b -> exists a, r = Ok a /\ k a = Ok b.
Proof. destruct r as [a | e |]; simpl; [eauto | done | done]. Qed.

Ltac bind_inversion H :=
  repeat (let a := fresh "a" in let E := fresh "E" in
          apply bind_Ok in H as (a & E & H)).

Lemma strptime_Ok_valid (s : string) (d : date) :
  strptime s = Ok d -> date_valid d = true.
Proof. unfold strptime. intros H. repeat case_match; simplify_eq. done. Qed.

Lemma from_dict_dated (cls : class) (data : gmap string value) (p : Product) :
  from_dict cls data = Ok p -> dated p.
Proof.
  destruct cls; simpl; [done | | |].
  - unfold Electronics.from_dict. intros H. bind_inversion H. by simplify_eq.
  - unfold Grocery.from_dict. intros H. bind_inversion H. simplify_eq.
    unfold dated; simpl. destruct a3; try done. by apply strptime_Ok_valid in E4.
  - unfold Clothing.from_dict. intros H. bind_inversion H. by simplify_eq.
Qed.

(** X11: every product the program builds carries a date of the calendar
    where it carries a date: the constructors give one, decoding a record
    gives one, and [sell], [restock] and the price setter keep it. *)
Theorem products_are_dated :
  (forall product_id name price quantity_in_stock expiry_date p,
     Grocery.init product_id name price quantity_in_stock expiry_date = Ok p ->
     dated p) /\
  (forall product_id name price quantity_in_stock warranty_years brand,
     dated (Electronics.init product_id name price quantity_in_stock warranty_years brand)) /\
  (forall product_id name price quantity_in_stock size material,
     dated (Clothing.init product_id name price quantity_in_stock size material)) /\
  (forall record p, deserialize record = Ok p -> dated p) /\
  (forall p p', dated p -> mutation p p' -> dated p').
Proof.
  split_and!; try done.
  - intros product_id name price q s p H. unfold Grocery.init in H.
    bind_inversion H. simplify_eq. by apply strptime_Ok_valid in E.
  - intros record p. unfold deserialize, decode. intros H.
    destruct (product_type <- subscript record "type";; _) as [p0 | e |] eqn:Hdec;
      [| by destruct e | done].
    simpl in H. simplify_eq. bind_inversion Hdec.
    destruct a0 as [cls |]; [| done]. destruct record; try done.
    by apply from_dict_dated in Hdec.
  - intros p p' Hp [[q ->] | [[a ->] | [x ->]]].
    + unfold Product.sell. by repeat case_match.
    + unfold Product.restock. by repeat case_match.
    + unfold Product.set_price. by repeat case_match.
Qed.

(** ** Searching *)

Lemma append_String (c : ascii) (s t : string) :
  String c s ++ t = String c (s ++ t).
Proof. reflexivity. Qed.

Lemma append_empty (t : string) : "" ++ t = t.
Proof. reflexivity. Qed.

Lemma prefix_spec (sub s : string) :
  String.prefix sub s = true <-> exists after, s = sub ++ after.
Proof.
  revert s. induction sub as [| c sub IH]; intros s.
  - split; [intros _; by exists s | intros _; by destruct s].
  - destruct s as [| c' s]; cbn [String.prefix].
    + split; [done | intros [after H]; by rewrite append_String in H].
    + destruct (ascii_dec c c') as [-> | Hne].
      * rewrite IH. split; intros [after H]; exists after;
          rewrite append_String in *; congruence.
      * split; [done | intros [after H]; rewrite append_String in H; congruence].
Qed.

Lemma contains_spec (sub s : string) :
  contains sub s = true <-> exists before after, s = before ++ sub ++ after.
Proof.
  induction s as [| c s IH]; cbn [contains].
  - rewrite orb_false_r, prefix_spec. split.
    + intros [after H]. by exists "", after.
    + intros (before & after & H).
      destruct before; [by exists after | by rewrite append_String in H].
  - rewrite orb_true_iff, prefix_spec, IH. split.
    + intros [[after H] | (before & after & H)].
      * by exists "", after.
      * exists (String c before), after. rewrite append_String. by rewrite H.
    + intros (before & after & H). destruct before as [| c' before].
      * left. by exists after.
      * right. exists before, after. rewrite append_String in H. congruence.
Qed.

(** X12: [search_by_name] returns, in the order of the store, exactly the
    stored products whose name contains the text searched for, letter case
    ignored; the store is read only. *)
Theorem search_by_name_spec (self : Inventory) (name : string) :
  exists found,
    Inventory.search_by_name name self = (Ok found, self) /\
    sublist found (dict_values self) /\
    forall p, p ∈ found <->
      p ∈ dict_values self /\
      exists before after, lower (_name p) = before ++ lower name ++ after.
Proof.
  unfold Inventory.search_by_name. eexists. split; [reflexivity |]. split.
  - apply sublist_filter.
  - intros p. rewrite list_elem_of_filter, Is_true_true, contains_spec. tauto.
Qed.

(** X13: [search_by_type] with a class returns only instances of the
    class; with [Product] it returns every product; and the results for
    [Electronics], [Grocery] and [Clothing] together are the products of
    the store, each once. *)
Theorem search_by_type_partition (self : Inventory) :
  fst (Inventory.search_by_type ProductClass self) = Ok (dict_values self) /\
  exists electronics groceries clothes,
    fst (Inventory.search_by_type ElectronicsClass self) = Ok electronics /\
    fst (Inventory.search_by_type GroceryClass self) = Ok groceries /\
    fst (Inventory.search_by_type ClothingClass self) = Ok clothes /\
    Forall (fun p => class_of p = ElectronicsClass) electronics /\
    Forall (fun p => class_of p = GroceryClass) groceries /\
    Forall (fun p => class_of p = ClothingClass) clothes /\
    (electronics ++ groceries ++ clothes)%list ≡ₚ dict_values self.
Proof.
  unfold Inventory.search_by_type; simpl. split.
  - f_equal. induction (dict_values self) as [| p l IH]; [done |].
    rewrite filter_cons_True by done. by rewrite IH.
  - do 3 eexists. split_and!; try reflexivity.
    + apply Forall_forall. intros p [Hp _]%list_elem_of_filter.
      unfold isinstance in Hp. by destruct (class_of p).
    + apply Forall_forall. intros p [Hp _]%list_elem_of_filter.
      unfold isinstance in Hp. by destruct (class_of p).
    + apply Forall_forall. intros p [Hp _]%list_elem_of_filter.
      unfold isinstance in Hp. by destruct (class_of p).
    + induction (dict_values self) as [| p l IH]; [done |].
      assert (class_of p <> ProductClass) as Hsub
        by (unfold class_of; by destruct (_attrs p)).
      destruct (class_of p) eqn:Hc; [done | | |].
      * rewrite (filter_cons_True _ p), (filter_cons_False _ p), (filter_cons_False _ p);
          try (unfold isinstance; rewrite Hc; simpl; tauto).
        simpl. by rewrite IH.
      * rewrite (filter_cons_False _ p), (filter_cons_True _ p), (filter_cons_False _ p);
          try (unfold isinstance; rewrite Hc; simpl; tauto).
        cbn [app]. rewrite <- Permutation_middle. by rewrite IH.
      * rewrite (filter_cons_False _ p), (filter_cons_False _ p), (filter_cons_True _ p);
          try (unfold isinstance; rewrite Hc; simpl; tauto).
        rewrite app_assoc, <- Permutation_middle, <- app_assoc. by rewrite IH.
Qed.

(** ** Loading a whole document *)

(** X14: when every record of the document decodes and no two records
    share a product id, [load_from_file] returns, and the store holds the
    decoded products in the order of the document and nothing of what it
    held before. *)
Theorem load_from_file_all_good (self : Inventory) (data : value)
    (records : list value) (products : list Product) :
  subscript data "products" = Ok (VList records) ->
  Forall2 (fun record product => decode record = Ok product) records products ->
  NoDup (map _product_id products) ->
  Inventory.load_from_file data self = (Ok tt, stored products).
Proof.
  intros Hdata Hgood Hnd. unfold Inventory.load_from_file.
  rewrite Hdata. cbn [bind iterate].
  rewrite <- (app_nil_r records).
  by rewrite (load_records_ok records products Hgood [] []).
Qed.

Lemma load_from_file_all_good_witness :
  Inventory.load_from_file
    (VDict (list_to_map [("products", VList [serialize milk; serialize tv])]))
    [("C1", shirt)]
  = (Ok tt, [("G1", milk); ("E1", tv)]).
Proof.
  apply (load_from_file_all_good [("C1", shirt)] _ [serialize milk; serialize tv] [milk; tv]).
  - reflexivity.
  - repeat constructor.
  - compute_done.
Defined.

(** X15: a document that is no JSON object, or has no "products", or whose
    "products" is a number, a boolean or null, makes [load_from_file] raise
    [TypeError] or [KeyError] (not [InvalidProductDataError]) and leaves
    the store empty; an empty "products" list loads an empty store. *)
Theorem load_from_file_malformed_document (self : Inventory) :
  (forall data,
     match data with VDict _ => False | _ => True end ->
     Inventory.load_from_file data self = (Raise TypeError, [])) /\
  (forall d,
     d !! "products" = None ->
     Inventory.load_from_file (VDict d) self = (Raise (KeyError "products"), [])) /\
  (forall d products,
     d !! "products" = Some products ->
     match products with
     | VNone | VBool _ | VInt _ | VFloat _ => True
     | _ => False
     end ->
     Inventory.load_from_file (VDict d) self = (Raise TypeError, [])) /\
  (forall d,
     d !! "products" = Some (VList []) ->
     Inventory.load_from_file (VDict d) self = (Ok tt, [])).
Proof.
  unfold Inventory.load_from_file, subscript, getitem. split_and!.
  - intros data Hshape. by destruct data.
  - by intros d ->.
  - intros d products -> Hshape. by destruct products.
  - by intros d ->.
Qed.

(** ** Adding and removing *)

(** X16: a product added under a new id is the one found under that id,
    the products under the other ids are the ones found before, and
    removing the id again gives back the store as it was. *)
Theorem add_then_remove (self : Inventory) (product : Product) :
  dict_get (_product_id product) self = None ->
  let added := snd (Inventory.add_product product self) in
  dict_get (_product_id product) added = Some product /\
  (forall k, k <> _product_id product -> dict_get k added = dict_get k self) /\
  Inventory.remove_product (_product_id product) added = (Ok tt, self).
Proof.
  intros Hnew. unfold Inventory.add_product, dict_mem. rewrite Hnew. simpl.
  split_and!.
  - apply dict_get_set_eq.
  - intros k Hk. by apply dict_get_set_ne.
  - unfold Inventory.remove_product.
    assert (dict_mem (_product_id product) self = false) as Hmem
      by (unfold dict_mem; by rewrite Hnew).
    rewrite dict_set_absent by done.
    rewrite dict_pop_middle by (by apply dict_mem_false).
    by rewrite app_nil_r.
Qed.

Lemma add_then_remove_witness :
  let added := snd (Inventory.add_product shirt sample_store) in
  dict_get "C1" added = Some shirt /\
  (forall k, k <> "C1" -> dict_get k added = dict_get k sample_store) /\
  Inventory.remove_product "C1" added = (Ok tt, sample_store).
Proof. apply (add_then_remove sample_store shirt). reflexivity. Defined.

(** ** The value of the inventory *)

Lemma float_of_int_result (z : Z) :
  (exists f, float_of_int z = Ok f) \/ float_of_int z = Raise OverflowError.
Proof. unfold float_of_int. case_match; eauto. Qed.

Lemma sum_values_result (products : list Product) :
  forall acc,
    (exists total, Inventory.sum_values acc products = Ok total) \/
    Inventory.sum_values acc products = Raise OverflowError.
Proof.
  induction products as [| p products IH]; intros acc; simpl; [eauto |].
  unfold Product.get_total_value, number_mul_int.
  destruct (_price p) as [z | f]; simpl.
  - destruct acc as [a | g]; simpl; [apply IH |].
    destruct (float_of_int_result (z * _quantity_in_stock p)) as [[h ->] | ->];
      simpl; [apply IH | by right].
  - destruct (float_of_int_result (_quantity_in_stock p)) as [[h ->] | ->];
      simpl; [| by right].
    destruct acc as [a | g]; simpl; [| apply IH].
    destruct (float_of_int_result a) as [[k ->] | ->]; simpl; [apply IH | by right].
Qed.

Lemma sum_values_whole (products : list Product) :
  Forall (fun p => exists z, _price p = NInt z) products ->
  forall acc,
    Inventory.sum_values (NInt acc) products = Ok (NInt (acc + whole_total products)).
Proof.
  induction 1 as [| p products [z Hz] _ IH]; intros acc; simpl.
  - f_equal. f_equal. lia.
  - unfold Product.get_total_value, whole_price. rewrite Hz. simpl.
    rewrite IH. f_equal. f_equal. lia.
Qed.

(** X17: [total_inventory_value] leaves the store as it is; it returns a
    number or raises [OverflowError], nothing else; and when every price
    is an [int] it returns the exact sum of price times stock, which is 0
    for the empty store. *)
Theorem total_inventory_value_cases (self : Inventory) :
  ((exists total, Inventory.total_inventory_value self = (Ok total, self)) \/
   Inventory.total_inventory_value self = (Raise OverflowError, self)) /\
  (Forall (fun p => exists z, _price p = NInt z) (dict_values self) ->
   Inventory.total_inventory_value self
   = (Ok (NInt (whole_total (dict_values self))), self)) /\
  Inventory.total_inventory_value [] = (Ok (NInt 0), []).
Proof.
  unfold Inventory.total_inventory_value. split_and!.
  - destruct (sum_values_result (dict_values self) (NInt 0)) as [[total ->] | ->]; eauto.
  - intros Hint. by rewrite (sum_values_whole _ Hint 0).
  - reflexivity.
Qed.

(** ** What decoding reads *)

(** X18: decoding looks at "type" and at the keys of the class it names,
    and at nothing else: two records that agree on these decode alike. *)
Theorem deserialize_reads_only_its_fields (data other : gmap string value) :
  data !! "type" = other !! "type" ->
  (forall tag key,
     data !! "type" = Some (VStr tag) -> key ∈ required_fields tag ->
     other !! key = data !! key) ->
  deserialize (VDict other) = deserialize (VDict data).
Proof.
  intros Htype Hfields. unfold deserialize, decode, subscript, getitem.
  rewrite <- Htype. destruct (data !! "type") as [tag |] eqn:Hdata; [| done].
  destruct tag as [| b | z | f | tag | l | d]; try done.
  specialize (Hfields tag). cbn [bind].
  unfold product_classes, required_fields in *.
  destruct (String.eqb tag "electronics");
    [| destruct (String.eqb tag "grocery");
       [| destruct (String.eqb tag "clothing")]]; cbn [bind from_dict]; [| | | done].
  - unfold Electronics.from_dict, getitem.
    by rewrite !Hfields by (done || set_solver).
  - unfold Grocery.from_dict, getitem.
    by rewrite !Hfields by (done || set_solver).
  - unfold Clothing.from_dict, getitem.
    by rewrite !Hfields by (done || set_solver).
Qed.

Lemma deserialize_reads_only_its_fields_witness :
  deserialize (VDict (<["colour" := VStr "black"]> (to_dict tv)))
  = deserialize (VDict (to_dict tv)).
Proof.
  apply deserialize_reads_only_its_fields.
  - reflexivity.
  - intros tag key Htag Hkey.
    assert (tag = "electronics") as -> by (vm_compute in Htag; congruence).
    rewrite lookup_insert_ne; [done |].
    intros <-. unfold required_fields in Hkey. simpl in Hkey.
    repeat (apply elem_of_cons in Hkey as [Hkey | Hkey]; [discriminate |]).
    by apply elem_of_nil in Hkey.
Defined.

Ltac next_field data before Heq Hbefore Hkey :=
  destruct before as [| ? before]; simpl in Heq;
  [ injection Heq as <- _; rewrite Hkey; reflexivity
  | injection Heq as <- Heq;
    match goal with
    | |- context [data !! ?k] =>
        let E := fresh "E" in
        destruct (data !! k) eqn:E;
        [ cbn [bind]
        | exfalso; apply (Hbefore k); [by left | exact E] ]
    end;
    assert (forall k, k ∈ before -> data !! k <> None) as Hbefore'
      by (intros ? ?; apply Hbefore; by right);
    clear Hbefore; rename Hbefore' into Hbefore ].

(** X19: a record without "type" is reported as missing "type"; otherwise
    the key reported missing is the first one, in the order the class
    reads them, that the record lacks, whatever the other keys hold. *)
Theorem deserialize_reports_first_missing_field (data : gmap string value) :
  (data !! "type" = None ->
   deserialize (VDict data)
   = Raise (InvalidProductDataError (MissingRequiredField "type"))) /\
  (forall tag before key after,
     data !! "type" = Some (VStr tag) ->
     required_fields tag = (before ++ key :: after)%list ->
     (forall k, k ∈ before -> data !! k <> None) ->
     data !! key = None ->
     deserialize (VDict data)
     = Raise (InvalidProductDataError (MissingRequiredField key))).
Proof.
  unfold deserialize, decode, subscript. split.
  - unfold getitem. by intros ->.
  - intros tag before key after Htype Heq Hbefore Hkey.
    unfold getitem at 1. rewrite Htype. cbn [bind].
    unfold product_classes, required_fields in *.
    destruct (String.eqb tag "electronics");
      [| destruct (String.eqb tag "grocery");
         [| destruct (String.eqb tag "clothing")]]; cbn [bind from_dict].
    + unfold Electronics.from_dict, getitem.
      do 6 (next_field data before Heq Hbefore Hkey). by destruct before.
    + unfold Grocery.from_dict, getitem.
      do 5 (next_field data before Heq Hbefore Hkey). by destruct before.
    + unfold Clothing.from_dict, getitem.
      do 6 (next_field data before Heq Hbefore Hkey). by destruct before.
    + by destruct before.
Qed.

Lemma deserialize_reports_first_missing_field_witness :
  deserialize
    (VDict (list_to_map
       [("type", VStr "grocery"); ("product_id", VStr "G7");
        ("expiry_date", VStr "never")]))
  = Raise (InvalidProductDataError (MissingRequiredField "name")).
Proof.
  apply (proj2 (deserialize_reports_first_missing_field _)
           "grocery" ["product_id"] "name"
           ["price"; "quantity_in_stock"; "expiry_date"]).
  - reflexivity.
  - reflexivity.
  - intros k Hk. apply list_elem_of_singleton in Hk as ->. done.
  - reflexivity.
Defined.

Lemma as_str_Ok (v : value) (s : string) : as_str v = Ok s -> v = VStr s.
Proof. destruct v; simpl; congruence. Qed.

Lemma as_int_Ok (v : value) (z : Z) : as_int v = Ok z -> v = VInt z.
Proof. destruct v; simpl; congruence. Qed.

Lemma as_float_Ok (v : value) (n : number) : as_float v = Ok n -> v = value_of_number n.
Proof. destruct v; simpl; intros; simplify_eq; done. Qed.

Lemma getitem_Ok (data : gmap string value) (key : string) (v : value) :
  getitem data key = Ok v -> data !! key = Some v.
Proof. unfold getitem. destruct (data !! key); congruence. Qed.

Ltac record_fields :=
  repeat match goal with
  | H : getitem _ _ = Ok _ |- _ => apply getitem_Ok in H
  | H : as_str _ = Ok _ |- _ => apply as_str_Ok in H; subst
  | H : as_int _ = Ok _ |- _ => apply as_int_Ok in H; subst
  | H : as_float _ = Ok _ |- _ => apply as_float_Ok in H; subst
  end.

Ltac same_field :=
  repeat match goal with
  | H : _ ∈ _ :: _ |- _ =>
      apply elem_of_cons in H as [-> | H];
      [ try done;
        match goal with
        | E : ?data !! ?k = _ |- _ = ?data !! ?k => rewrite E; by vm_compute
        end
      | ]
  | H : _ ∈ [] |- _ => by apply elem_of_nil in H
  end.

(** X20: a record that decodes is given back by encoding the product: the
    product's record has the type tag of the record decoded and, under
    every key the class reads, the value the record holds; only the expiry
    date is written anew, from the date its text was parsed to. *)
Theorem serialize_deserialize (data : gmap string value) (p : Product) :
  deserialize (VDict data) = Ok p ->
  exists tag,
    data !! "type" = Some (VStr tag) /\
    to_dict p !! "type" = Some (VStr tag) /\
    (forall key, key ∈ required_fields tag -> key <> "expiry_date" ->
       to_dict p !! key = data !! key) /\
    (forall expiry_date, _attrs p = GroceryAttrs expiry_date ->
       exists text, data !! "expiry_date" = Some (VStr text) /\
                    strptime text = Ok expiry_date).
Proof.
  unfold deserialize, decode. intros H.
  destruct (product_type <- subscript (VDict data) "type";; _) as [p0 | e |] eqn:Hdec;
    [| by destruct e | done].
  simpl in H. simplify_eq. bind_inversion Hdec. simpl in E. apply getitem_Ok in E.
  destruct a0 as [cls |]; [| done].
  destruct a as [| b | z | f | tag | l | d]; try done.
  exists tag. split; [done |].
  unfold product_classes, required_fields in *.
  destruct (String.eqb tag "electronics") eqn:H1;
    [| destruct (String.eqb tag "grocery") eqn:H2;
       [| destruct (String.eqb tag "clothing") eqn:H3]]; simplify_eq.
  - apply String.eqb_eq in H1 as ->. cbn [from_dict] in Hdec.
    unfold Electronics.from_dict in Hdec. bind_inversion Hdec. simplify_eq.
    record_fields. split_and!.
    + reflexivity.
    + intros key Hkey _. same_field.
    + intros expiry_date Hattrs. discriminate.
  - apply String.eqb_eq in H2 as ->. cbn [from_dict] in Hdec.
    unfold Grocery.from_dict in Hdec. bind_inversion Hdec. simplify_eq.
    record_fields. split_and!.
    + reflexivity.
    + intros key Hkey Hne. same_field.
    + intros expiry_date Hattrs. simpl in Hattrs. simplify_eq.
      destruct a3; try done. eauto.
  - apply String.eqb_eq in H3 as ->. cbn [from_dict] in Hdec.
    unfold Clothing.from_dict in Hdec. bind_inversion Hdec. simplify_eq.
    record_fields. split_and!.
    + reflexivity.
    + intros key Hkey _. same_field.
    + intros expiry_date Hattrs. discriminate.
Qed.

Lemma serialize_deserialize_witness :
  exists tag,
    to_dict milk !! "type" = Some (VStr tag) /\
    to_dict milk !! "type" = Some (VStr tag) /\
    (forall key, key ∈ required_fields tag -> key <> "expiry_date" ->
       to_dict milk !! key = to_dict milk !! key) /\
    (forall expiry_date, _attrs milk = GroceryAttrs expiry_date ->
       exists text, to_dict milk !! "expiry_date" = Some (VStr text) /\
                    strptime text = Ok expiry_date).
Proof. apply (serialize_deserialize (to_dict milk) milk). reflexivity. Defined.
